(** * Patient satisfaction dashboard: model of [scripts/dashboard.py]

    The script loads a survey table, maps the satisfaction columns to numeric
    scores and serves one reactive callback, [update_dashboard], that filters
    the table by facility and respondent sex and recomputes a summary card and
    two bar charts.

    Conventions of the embedding:
    - a pandas column is a [Series] tagged by its dtype, as [read_csv] yields
      them for survey data: a numeric array whose missing entries ([NaN]) are
      [None], or an object array of arbitrary cells; a column of booleans,
      which the script counts as numeric when it maps and which
      [select_dtypes] leaves out when it charts, is not represented;
    - a [DataFrame] is its row index and its columns, in order;
    - floating-point numbers are exact rationals ([Q]), so the rounding of
      a sum or a mean is not represented; [NaN] is kept apart;
    - dropdown values and selections are lists of non-missing scalars;
    - Python exceptions are values of [exn], threaded by the [result] monad;
    - [print] appends to an explicit list of output lines;
    - [ctx.triggered_id] is an explicit argument of the callback;
    - the plotting and HTML layers are opaque: a figure or a summary card is
      the record of the arguments the script hands to them;
    - the conversion of text to numbers inside [pd.to_numeric] is a
      parameter, [str_to_float];
    - numpy's [argsort], which pandas calls with its default
      [kind='quicksort'] to sort a series, is a parameter, [argsort]: an
      algorithm that is free to order equal keys as it likes. *)

From Stdlib Require Import List String Ascii Bool Arith ZArith QArith Lia Lqa.
From Stdlib Require Import Permutation Sorted OrdersEx.
Import ListNotations.

Local Open Scope string_scope.
Local Open Scope list_scope.

(** ** Exceptions *)

Inductive exn : Type :=
| KeyError (key : string)
| TypeError.

Inductive result (A : Type) : Type :=
| Ok (a : A)
| Raise (e : exn).

Arguments Ok {A} a.
Arguments Raise {A} e.

Definition bind {A B : Type} (m : result A) (k : A -> result B) : result B :=
  match m with
  | Ok a => k a
  | Raise e => Raise e
  end.

Notation "x <- m ;; k" := (bind m (fun x => k))
  (at level 61, m at next level, right associativity).

Fixpoint mapM {A B : Type} (f : A -> result B) (l : list A) : result (list B) :=
  match l with
  | [] => Ok []
  | a :: l' => b <- f a ;; bs <- mapM f l' ;; Ok (b :: bs)
  end.

(** ** Data model *)

(** A Python object stored in an object column: a number, a piece of text, or
    the missing-value marker. *)
Inductive cell : Type :=
| Num (q : Q)
| Str (s : string)
| NaN.

(** A non-missing scalar, as carried by a dropdown option or a selection. *)
Inductive scalar : Type :=
| SNum (q : Q)
| SStr (s : string).

Inductive Series : Type :=
| Numeric (values : list (option Q))
| Object (values : list cell).

Inductive dtype : Type := number | object.

Record DataFrame : Type := mkDataFrame {
  index : list nat;
  columns : list (string * Series)
}.

Definition is_numeric_dtype (s : Series) : bool :=
  match s with
  | Numeric _ => true
  | Object _ => false
  end.

Definition dtype_of (s : Series) : dtype :=
  if is_numeric_dtype s then number else object.

Definition series_len (s : Series) : nat :=
  match s with
  | Numeric v => List.length v
  | Object v => List.length v
  end.

Definition is_str (c : cell) : bool :=
  match c with
  | Str _ => true
  | _ => false
  end.

Fixpoint lookup (name : string) (cols : list (string * Series)) : option Series :=
  match cols with
  | [] => None
  | (n, s) :: cols' => if String.eqb n name then Some s else lookup name cols'
  end.

(** [col in df.columns] *)
Definition has_column (df : DataFrame) (col : string) : bool :=
  match lookup col (columns df) with
  | Some _ => true
  | None => false
  end.

(** [df[col]] *)
Definition getitem (df : DataFrame) (col : string) : result Series :=
  match lookup col (columns df) with
  | Some s => Ok s
  | None => Raise (KeyError col)
  end.

Fixpoint assign (name : string) (s : Series) (cols : list (string * Series))
  : list (string * Series) :=
  match cols with
  | [] => [(name, s)]
  | (n, s0) :: cols' =>
      if String.eqb n name then (n, s) :: cols' else (n, s0) :: assign name s cols'
  end.

(** [df[col] = s] *)
Definition setitem (df : DataFrame) (col : string) (s : Series) : DataFrame :=
  {| index := index df; columns := assign col s (columns df) |}.

(** [len(df)] *)
Definition len (df : DataFrame) : nat := List.length (index df).

(** [df.empty]: some axis has length zero. *)
Definition empty (df : DataFrame) : bool :=
  (len df =? 0)%nat || (List.length (columns df) =? 0)%nat.

(** ** Boolean-mask row selection: [df[mask]] *)

Fixpoint boolean_mask {A : Type} (mask : list bool) (l : list A) : list A :=
  match mask, l with
  | b :: mask', x :: l' =>
      if b then x :: boolean_mask mask' l' else boolean_mask mask' l'
  | _, _ => []
  end.

Definition mask_series (mask : list bool) (s : Series) : Series :=
  match s with
  | Numeric v => Numeric (boolean_mask mask v)
  | Object v => Object (boolean_mask mask v)
  end.

Definition mask_rows (mask : list bool) (df : DataFrame) : DataFrame :=
  {| index := boolean_mask mask (index df);
     columns := map (fun c => (fst c, mask_series mask (snd c))) (columns df) |}.

Definition scalar_eqb (a b : scalar) : bool :=
  match a, b with
  | SNum x, SNum y => Qeq_bool x y
  | SStr x, SStr y => String.eqb x y
  | _, _ => false
  end.

(** [x in values] *)
Definition contains (values : list scalar) (x : scalar) : bool :=
  existsb (scalar_eqb x) values.

(** [series.isin(values)]: a missing entry is in no selection. *)
Definition isin (s : Series) (values : list scalar) : list bool :=
  match s with
  | Numeric v =>
      map (fun o => match o with
                    | Some q => contains values (SNum q)
                    | None => false
                    end) v
  | Object v =>
      map (fun c => match c with
                    | Num q => contains values (SNum q)
                    | Str x => contains values (SStr x)
                    | NaN => false
                    end) v
  end.

(** Truth value of a Python list. *)
Definition truthy {A : Type} (l : list A) : bool :=
  match l with
  | [] => false
  | _ :: _ => true
  end.

(** ** Column constants (section 1 of the script) *)

Definition care_satisfaction_cols : list string :=
  [ "satisfaction_waiting_time"; "Time with the health provider";
    "Privacy during examination"; "Staff attitude";
    "Opening hours of the facility"; "Quality of the advice and information";
    "satisfaction_procedure_treatment"; "overall_satisfaction_rating" ].

Definition facility_satisfaction_cols : list string :=
  [ "facility_cleanliness_rating"; "facility_condition_rating";
    "facility_info_displayed_rating"; "facility_private_talk_spaces_rating";
    "facility_ease_of_movement_rating"; "facility_waiting_comfort_rating" ].

Definition filter_cols : list string := [ "health_facility"; "respondent_sex" ].

Definition all_satisfaction_cols : list string :=
  care_satisfaction_cols ++ facility_satisfaction_cols.

Definition satisfaction_mapping : list (string * Q) :=
  [ ("Satisfied", 3%Q); ("somewhat satisfied", 2%Q); ("Dissatisfied", 1%Q);
    ("Excellent", 3%Q); ("Good", 2%Q); ("Fair", 1%Q); ("Poor", 0%Q) ].

(** ** Numeric reductions (pandas skips missing entries by default) *)

Definition is_none {A : Type} (o : option A) : bool :=
  match o with
  | None => true
  | Some _ => false
  end.

Definition dropna (v : list (option Q)) : list Q :=
  flat_map (fun o => match o with Some q => [q] | None => [] end) v.

Definition Qsum (l : list Q) : Q := fold_right Qplus 0%Q l.

Definition average (l : list Q) : Q :=
  (Qsum l / inject_Z (Z.of_nat (List.length l)))%Q.

(** [mean()] of a numeric array; [None] is the [NaN] result. *)
Definition nanmean (v : list (option Q)) : option Q :=
  match dropna v with
  | [] => None
  | x :: xs => Some (average (x :: xs))
  end.

Definition greater (a b : Q) : Q := if Qle_bool a b then b else a.

(** [max()] of a numeric array. *)
Definition nanmax (v : list (option Q)) : option Q :=
  match dropna v with
  | [] => None
  | x :: xs => Some (fold_left greater xs x)
  end.

Definition number_of (c : cell) : option Q :=
  match c with
  | Num q => Some q
  | _ => None
  end.

(** [series.mean()]: an object column holding text cannot be summed. *)
Definition series_mean (s : Series) : result (option Q) :=
  match s with
  | Numeric v => Ok (nanmean v)
  | Object v =>
      if existsb is_str v then Raise TypeError else Ok (nanmean (map number_of v))
  end.

(** [series.isnull().any()] *)
Definition isnull_any (s : Series) : bool :=
  match s with
  | Numeric v => existsb is_none v
  | Object v => existsb (fun c => match c with NaN => true | _ => false end) v
  end.

(** ** Sorting

    Python's [sorted] is a stable sort; on a list it returns what the
    insertion sort below returns: each element, left to right, is placed
    behind the entries that are not greater than it. *)

Section InsertionSort.
Context {A : Type}.
Variable ltb : A -> A -> bool.

Fixpoint insert (x : A) (l : list A) : list A :=
  match l with
  | [] => [x]
  | y :: l' => if ltb x y then x :: y :: l' else y :: insert x l'
  end.

Definition insertion_sort (l : list A) : list A :=
  fold_left (fun acc x => insert x acc) l [].
End InsertionSort.

Definition Qltb (a b : Q) : bool := negb (Qle_bool b a).

(** The entries of a series of means that are not missing, and those that
    are. *)
Definition non_nans (s : list (string * option Q)) : list (string * Q) :=
  flat_map (fun e => match snd e with
                     | Some q => [(fst e, q)]
                     | None => []
                     end) s.

Definition nans (s : list (string * option Q)) : list (string * option Q) :=
  filter (fun e => is_none (snd e)) s.

Definition with_value (e : string * Q) : string * option Q :=
  (fst e, Some (snd e)).

(** [l[indexer]]: the entries of [l] at the positions listed, in that
    order. *)
Definition take {A : Type} (indexer : list nat) (l : list A) : list A :=
  flat_map (fun i => match nth_error l i with
                     | Some x => [x]
                     | None => []
                     end) indexer.

(** [series.sort_values(ascending=False)] on a series indexed by column
    name.  As pandas does: the non-missing entries are reversed, put in
    ascending order by the positions [argsort] returns for their values,
    and reversed again; the missing ones follow in their original order
    ([na_position='last']). *)
Definition sort_values_descending (argsort : list Q -> list nat)
  (s : list (string * option Q)) : list (string * option Q) :=
  let reversed := rev (non_nans s) in
  map with_value (rev (take (argsort (map snd reversed)) reversed))
  ++ nans s.

(** ** Cleaning and mapping (section 2 of the script) *)

Inductive output : Type :=
| Line (text : string)
| Dtypes (table : list (string * dtype)).

Definition nl : string := String (ascii_of_nat 10) "".

Fixpoint dict_get (k : string) (d : list (string * Q)) : option Q :=
  match d with
  | [] => None
  | (k', v) :: d' => if String.eqb k' k then Some v else dict_get k d'
  end.

(** [series.replace(mapping)] with a mapping keyed by text. *)
Definition replace (mapping : list (string * Q)) (s : Series) : Series :=
  match s with
  | Numeric v => Numeric v
  | Object v =>
      Object (map (fun c => match c with
                            | Str x => match dict_get x mapping with
                                       | Some n => Num n
                                       | None => Str x
                                       end
                            | _ => c
                            end) v)
  end.

Section Cleaning.

(** The library's conversion of a piece of text to a number; [None] when
    the text does not denote one. *)
Variable str_to_float : string -> option Q.

Definition coerce (c : cell) : option Q :=
  match c with
  | Num q => Some q
  | Str x => str_to_float x
  | NaN => None
  end.

(** [pd.to_numeric(series, errors='coerce')] *)
Definition to_numeric (s : Series) : Series :=
  match s with
  | Numeric v => Numeric v
  | Object v => Numeric (map coerce v)
  end.

(** Body of the mapping loop, for one column. *)
Definition map_column (st : DataFrame * list output) (col : string)
  : DataFrame * list output :=
  let (df, out) := st in
  match lookup col (columns df) with
  | Some s =>
      if negb (is_numeric_dtype s) then
        let out := out ++ [Line ("Mapping column: " ++ col)] in
        let replaced := replace satisfaction_mapping s in
        let df := setitem df col replaced in
        let converted := to_numeric replaced in
        let df := setitem df col converted in
        if isnull_any converted then
          (df, out ++ [Line ("  Warning: Some values in " ++ col
                             ++ " could not be mapped and became NaN.")])
        else (df, out)
      else
        if negb (is_numeric_dtype s) then
          let converted := to_numeric s in
          let df := setitem df col converted in
          if isnull_any converted then
            (df, out ++ [Line ("  Warning: Some non-numeric values found in supposedly numeric column "
                               ++ col ++ " became NaN.")])
          else (df, out)
        else (df, out)
  | None => (df, out)
  end.

Definition apply_mapping (df : DataFrame) (out : list output)
  : DataFrame * list output :=
  fold_left map_column all_satisfaction_cols (df, out).

(** The table the callback works on. *)
Definition clean (df : DataFrame) : DataFrame := fst (apply_mapping df []).

End Cleaning.

(** ** Dropdown options (section 3 of the script) *)

Definition present_values (s : Series) : list scalar :=
  match s with
  | Numeric v =>
      flat_map (fun o => match o with Some q => [SNum q] | None => [] end) v
  | Object v =>
      flat_map (fun c => match c with
                         | Num q => [SNum q]
                         | Str x => [SStr x]
                         | NaN => []
                         end) v
  end.

(** [unique()]: first occurrences, in order of appearance. *)
Fixpoint unique (l : list scalar) : list scalar :=
  match l with
  | [] => []
  | x :: l' => x :: filter (fun y => negb (scalar_eqb x y)) (unique l')
  end.

Definition is_snum (x : scalar) : bool :=
  match x with SNum _ => true | SStr _ => false end.

Definition is_sstr (x : scalar) : bool :=
  match x with SStr _ => true | SNum _ => false end.

Definition scalar_ltb (a b : scalar) : bool :=
  match a, b with
  | SNum x, SNum y => Qltb x y
  | SStr x, SStr y => String.ltb x y
  | _, _ => false
  end.

(** [sorted(values)]: numbers and text do not compare. *)
Definition sorted (l : list scalar) : result (list scalar) :=
  if forallb is_snum l || forallb is_sstr l
  then Ok (insertion_sort scalar_ltb l)
  else Raise TypeError.

(** [sorted(df[col].dropna().unique())] *)
Definition dimension_values (s : Series) : result (list scalar) :=
  sorted (unique (present_values s)).

Record option_entry : Type := mkOption {
  label : scalar;
  value : scalar
}.

Definition dropdown_options (all_label : string) (df : DataFrame) (col : string)
  : result (list option_entry) :=
  s <- getitem df col ;;
  vals <- dimension_values s ;;
  Ok (mkOption (SStr all_label) (SStr "all")
      :: map (fun v => mkOption v v) vals).

(** ** The callback (section 6 of the script) *)

(** What the summary card shows after "out of": a score ([None] prints as
    [nan]) or the text [N/A]. *)
Inductive denominator : Type :=
| Score (max_score : option Q)
| NotAvailable.

(** [max_score or 'N/A']: a zero score is false, [nan] is true. *)
Definition or_not_available (max_score : option Q) : denominator :=
  match max_score with
  | Some q => if Qeq_bool q 0 then NotAvailable else Score (Some q)
  | None => Score None
  end.

(** Children of the summary card: either a plain message, or the respondent
    count and the average (printed with two decimals) over the denominator. *)
Inductive summary : Type :=
| Message (text : string)
| Card (num_respondents : nat) (avg_overall_satisfaction : option Q)
       (out_of : denominator).

(** A figure: a bare layout with a title (placeholder), or the bar chart
    built from the category names and heights. *)
Inductive figure : Type :=
| Placeholder (title : string)
| Bar (x : list string) (y : list (option Q)) (title : string).

Record outputs : Type := mkOutputs {
  summary_card : summary;
  care_satisfaction_chart : figure;
  facility_satisfaction_chart : figure;
  facility_dropdown : list scalar;
  sex_dropdown : list scalar
}.

Definition all_selected : list scalar := [SStr "all"].

(** Lines 150-151: the facility filter. *)
Definition filter_facility (selected_facilities : list scalar)
  (filtered_df : DataFrame) : result DataFrame :=
  if truthy selected_facilities && negb (contains selected_facilities (SStr "all"))
  then
    col <- getitem filtered_df "health_facility" ;;
    Ok (mask_rows (isin col selected_facilities) filtered_df)
  else Ok filtered_df.

(** Lines 152-153: the sex filter. *)
Definition filter_sex (selected_sexes : list scalar)
  (filtered_df : DataFrame) : result DataFrame :=
  if truthy selected_sexes && negb (contains selected_sexes (SStr "all"))
  then
    col <- getitem filtered_df "respondent_sex" ;;
    Ok (mask_rows (isin col selected_sexes) filtered_df)
  else Ok filtered_df.

Definition is_reset (triggered_id : option string) : bool :=
  match triggered_id with
  | Some id => String.eqb id "reset-button"
  | None => false
  end.

(** Lines 143-153: the selections in force and the filtered table. *)
Definition select_rows (df : DataFrame) (triggered_id : option string)
  (selected_facilities selected_sexes : list scalar)
  : result (list scalar * list scalar * DataFrame) :=
  if is_reset triggered_id then
    Ok (all_selected, all_selected, df)
  else
    filtered_df <- filter_facility selected_facilities df ;;
    filtered_df <- filter_sex selected_sexes filtered_df ;;
    Ok (selected_facilities, selected_sexes, filtered_df).

(** [df[cols]] for a list of column names. *)
Definition getitems (df : DataFrame) (cols : list string)
  : result (list (string * Series)) :=
  mapM (fun col => s <- getitem df col ;; Ok (col, s)) cols.

(** [select_dtypes(include=np.number)] *)
Definition select_dtypes_number (cols : list (string * Series))
  : list (string * list (option Q)) :=
  flat_map (fun c => match snd c with
                     | Numeric v => [(fst c, v)]
                     | Object _ => []
                     end) cols.

(** [DataFrame.mean()] of numeric columns: one mean per column. *)
Definition frame_mean (cols : list (string * list (option Q)))
  : list (string * option Q) :=
  map (fun c => (fst c, nanmean (snd c))) cols.

(** Lines 180-181, for one column group, before the sort. *)
Definition column_means (filtered_df : DataFrame) (cols : list string)
  : result (list (string * option Q)) :=
  sub <- getitems filtered_df cols ;;
  Ok (frame_mean (select_dtypes_number sub)).

(** Lines 180-181, for one column group. *)
Definition group_means (argsort : list Q -> list nat)
  (filtered_df : DataFrame) (cols : list string)
  : result (list (string * option Q)) :=
  means <- column_means filtered_df cols ;;
  Ok (sort_values_descending argsort means).

(** Lines 184-206, for one column group. *)
Definition make_figure (means : list (string * option Q))
  (title no_data_title : string) : figure :=
  if negb (List.length means =? 0)%nat
  then Bar (map fst means) (map snd means) title
  else Placeholder no_data_title.

Section Callback.

Variable str_to_float : string -> option Q.
Variable argsort : list Q -> list nat.

(** Lines 166-172. *)
Definition global_max_score (df : DataFrame) : option Q :=
  match getitem df "overall_satisfaction_rating" with
  | Ok s =>
      match to_numeric str_to_float s with
      | Numeric numeric_overall =>
          if negb (List.length numeric_overall =? 0)%nat
          then nanmax numeric_overall
          else Some 3%Q
      | Object _ => Some 3%Q
      end
  | Raise _ => Some 3%Q
  end.

Definition update_dashboard (df : DataFrame) (triggered_id : option string)
  (selected_facilities selected_sexes : list scalar) (reset_clicks : nat)
  : result outputs :=
  sel <- select_rows df triggered_id selected_facilities selected_sexes ;;
  let '(selected_facilities, selected_sexes, filtered_df) := sel in
  if empty filtered_df then
    let summary_text := Message "No data matches the selected filters." in
    let empty_fig := Placeholder "No data to display" in
    let reset_fac :=
      if is_reset triggered_id then all_selected else selected_facilities in
    let reset_sex :=
      if is_reset triggered_id then all_selected else selected_sexes in
    Ok (mkOutputs summary_text empty_fig empty_fig reset_fac reset_sex)
  else
    let num_respondents := len filtered_df in
    overall <- getitem filtered_df "overall_satisfaction_rating" ;;
    avg_overall_satisfaction <- series_mean overall ;;
    let max_score := global_max_score df in
    let summary_text :=
      Card num_respondents avg_overall_satisfaction
           (or_not_available max_score) in
    care_means <- group_means argsort filtered_df care_satisfaction_cols ;;
    facility_means <-
      group_means argsort filtered_df facility_satisfaction_cols ;;
    let fig_care :=
      make_figure care_means "Average Care Satisfaction Scores"
                  "No numeric care data to display" in
    let fig_facility :=
      make_figure facility_means "Average Facility Satisfaction Scores"
                  "No numeric facility data to display" in
    let reset_fac_val :=
      if is_reset triggered_id then all_selected else selected_facilities in
    let reset_sex_val :=
      if is_reset triggered_id then all_selected else selected_sexes in
    Ok (mkOutputs summary_text fig_care fig_facility reset_fac_val reset_sex_val).

(** ** The script from start to serving (sections 1-3 and 7) *)

Inductive process : Type :=
| Exited (stdout : list output)
| Crashed (stdout : list output) (e : exn)
| Serving (stdout : list output) (df : DataFrame)
          (facility_options sex_options : list option_entry).

(** [repr] of a list of plain column names. *)
Definition repr_list (l : list string) : string :=
  match l with
  | [] => "[]"
  | _ :: _ => "['" ++ String.concat "', '" l ++ "']"
  end.

Definition missing_cols (df : DataFrame) : list string :=
  filter (fun col => negb (has_column df col))
         (all_satisfaction_cols ++ filter_cols).

(** [read_csv] is the outcome of reading [data_path]: [None] when the
    file is not found. *)
Definition script (data_path : string) (read_csv : option DataFrame)
  : process :=
  match read_csv with
  | None =>
      Exited [Line ("Error: " ++ data_path
                    ++ " not found. Please ensure the file exists at this location.")]
  | Some df_orig =>
      let out := [Line ("Data loaded successfully from: " ++ data_path)] in
      let df := df_orig in
      if truthy (missing_cols df) then
        Exited (out ++
          [Line ("Error: The following required columns are missing from the data: "
                 ++ repr_list (missing_cols df));
           Line "Please check the column names in the CSV file."])
      else
        let out := out ++ [Line (nl ++ "Applying numeric mapping...")] in
        let (df, out) := apply_mapping str_to_float df out in
        let out := out ++
          [Line "Mapping complete."; Line (nl ++ "Data types after mapping:");
           Dtypes (flat_map (fun col => match lookup col (columns df) with
                                        | Some s => [(col, dtype_of s)]
                                        | None => []
                                        end) all_satisfaction_cols)] in
        match dropdown_options "All Facilities" df "health_facility" with
        | Raise e => Crashed out e
        | Ok facility_options =>
            match dropdown_options "All Sexes" df "respondent_sex" with
            | Raise e => Crashed out e
            | Ok sex_options =>
                Serving (out ++
                  [Line (nl ++ "Starting Dash server...");
                   Line "Access the dashboard at: http://127.0.0.1:8050/"])
                  df facility_options sex_options
            end
        end
  end.

End Callback.

(** ** Sample tables *)

(** A parser that recognises no text as a number. *)
Definition no_number (s : string) : option Q := None.

(** The keys paired with their positions. *)
Definition indexed (keys : list Q) : list (nat * Q) :=
  combine (seq 0 (List.length keys)) keys.

Definition pair_ltb (a b : nat * Q) : bool := Qltb (snd a) (snd b).

(** An [argsort] that inserts the keys from left to right, as numpy's scalar
    code does on short arrays: equal keys keep their order. *)
Definition insertion_argsort (keys : list Q) : list nat :=
  map fst (insertion_sort pair_ltb (indexed keys)).


(** A table with the two filter columns, the given overall-satisfaction
    column, and every other satisfaction column equal to [other]. *)
Definition survey (facility sex : list cell) (overall other : Series)
  : DataFrame :=
  {| index := seq 0 (List.length facility);
     columns :=
       [("health_facility", Object facility); ("respondent_sex", Object sex)]
       ++ map (fun n => (n, if String.eqb n "overall_satisfaction_rating"
                            then overall else other))
              all_satisfaction_cols |}.

(** Three respondents, one with no recorded facility, ratings still text. *)
Definition raw_survey : DataFrame :=
  survey [Str "A"; Str "B"; NaN] [Str "M"; Str "F"; Str "F"]
         (Numeric [Some 3%Q; Some 2%Q; None])
         (Object [Str "Satisfied"; Str "Good"; Str "unknown"]).

Definition clean_survey : DataFrame := clean no_number raw_survey.

(** ** Vocabulary of the properties *)


(** The filtered table of an invocation. *)
Definition filtered_subset (df : DataFrame) (triggered_id : option string)
  (selected_facilities selected_sexes : list scalar) : result DataFrame :=
  sel <- select_rows df triggered_id selected_facilities selected_sexes ;;
  Ok (snd sel).

(** Every column is as long as the index. *)
Definition well_formed (df : DataFrame) : bool :=
  forallb (fun c => (series_len (snd c) =? len df)%nat) (columns df).

(** The column [col] of [df], when present, has a numeric dtype. *)
Definition numeric_at (df : DataFrame) (col : string) : Prop :=
  forall s, lookup col (columns df) = Some s -> exists v, s = Numeric v.

(** Every required column is in the table. *)
Definition has_required_columns (df : DataFrame) : Prop :=
  forall col, In col (all_satisfaction_cols ++ filter_cols) ->
              has_column df col = true.

(** The script went past the column check and finished the mapping. *)
Definition loaded (str_to_float : string -> option Q) (df_orig : DataFrame)
  (p : process) : Prop :=
  match p with
  | Exited _ => False
  | Crashed stdout _ => In (Line "Mapping complete.") stdout
  | Serving stdout df _ _ =>
      In (Line "Mapping complete.") stdout /\ df = clean str_to_float df_orig
  end.

(** A table with no column at all. *)
Definition no_columns : DataFrame := {| index := []; columns := [] |}.






(** The columns of a group that have a numeric dtype in [df], in the order
    of the group. *)
Definition numeric_columns (df : DataFrame) (cols : list string) : list string :=
  filter (fun c => match lookup c (columns df) with
                   | Some (Numeric _) => true
                   | _ => false
                   end) cols.





(** [m] is the largest entry of [v] that is not missing. *)
Definition observed_maximum (v : list (option Q)) (m : option Q) : Prop :=
  match m with
  | Some q => In (Some q) v /\ forall x, In (Some x) v -> (x <= q)%Q
  | None => forall x, ~ In (Some x) v
  end.




(** Two tables with the same columns, of the same dtypes. *)
Definition same_schema (f df : DataFrame) : Prop :=
  forall c, option_map is_numeric_dtype (lookup c (columns f))
            = option_map is_numeric_dtype (lookup c (columns df)).


(** One respondent whose overall rating is the lowest score. *)
Definition zero_survey : DataFrame :=
  survey [Str "A"] [Str "M"] (Numeric [Some 0%Q]) (Numeric [Some 1%Q]).

(** Two respondents, the second with no recorded facility. *)
Definition partial_survey : DataFrame :=
  survey [Str "A"; NaN] [Str "M"; Str "F"]
         (Numeric [Some 3%Q; Some 2%Q]) (Numeric [Some 1%Q; Some 1%Q]).




(** Respondents rated the facility in free text that was never mapped. *)
Definition text_facility_survey : DataFrame :=
  {| index := [0; 1]%nat;
     columns :=
       [("health_facility", Object [Str "A"; Str "B"]);
        ("respondent_sex", Object [Str "M"; Str "F"])]
       ++ map (fun n => (n, Numeric [Some 3%Q; Some 1%Q])) care_satisfaction_cols
       ++ map (fun n => (n, Object [Str "clean"; NaN])) facility_satisfaction_cols |}.

(** The denominator [d] shows the maximum [m]: the score itself, except that
    a zero score reads [N/A]. *)
Definition shows_maximum (m : option Q) (d : denominator) : Prop :=
  match m with
  | Some q => ((q == 0)%Q -> d = NotAvailable)
              /\ (~ (q == 0)%Q -> d = Score (Some q))
  | None => d = Score None
  end.

(** The score the mapping step gives one cell: a number stays, a known
    label takes its score, other text goes through the conversion, a missing
    cell stays missing. *)
Definition score (str_to_float : string -> option Q) (c : cell) : option Q :=
  match c with
  | Num q => Some q
  | Str x => match dict_get x satisfaction_mapping with
             | Some n => Some n
             | None => str_to_float x
             end
  | NaN => None
  end.

(** The names of the columns of a table, in order. *)
Definition column_names (df : DataFrame) : list string :=
  map fst (columns df).

(** Row by row, whether a selection lets the row through: every row when the
    selection is empty or holds the "all" sentinel, otherwise the rows whose
    value is selected. *)
Definition passes (selected : list scalar) (s : Series) : list bool :=
  if truthy selected && negb (contains selected (SStr "all"))
  then isin s selected
  else map (fun _ => true) (isin s selected).

(** Row by row, the conjunction of two masks. *)
Definition both (m1 m2 : list bool) : list bool :=
  map (fun p => fst p && snd p) (combine m1 m2).

(** A filter is in force when its selection is neither empty nor "all". *)
Definition in_force (selected : list scalar) : bool :=
  truthy selected && negb (contains selected (SStr "all")).

(** An order on scalars that extends the comparison of numbers and of text
    by putting every number before every piece of text. *)
Definition scalar_le (a b : scalar) : Prop :=
  match a, b with
  | SNum x, SNum y => (x <= y)%Q
  | SStr x, SStr y => String.leb x y = true
  | SNum _, SStr _ => True
  | SStr _, SNum _ => False
  end.

Definition scalar_ltb_total (a b : scalar) : bool :=
  match a, b with
  | SNum _, SStr _ => true
  | SStr _, SNum _ => false
  | _, _ => scalar_ltb a b
  end.

(** * Properties *)

(** ** Row selection *)

Lemma boolean_mask_nil_r {A : Type} (mask : list bool) :
  boolean_mask mask (@nil A) = [].
Proof. destruct mask as [|[] ?]; reflexivity. Qed.

Lemma boolean_mask_comm {A : Type} (m1 m2 : list bool) (l : list A) :
  boolean_mask (boolean_mask m1 m2) (boolean_mask m1 l)
  = boolean_mask (boolean_mask m2 m1) (boolean_mask m2 l).
Proof.
  revert m2 l.
  induction m1 as [|b1 m1 IH]; intros m2 l.
  - now rewrite (boolean_mask_nil_r m2).
  - destruct m2 as [|b2 m2].
    + now rewrite (boolean_mask_nil_r (b1 :: m1)).
    + destruct l as [|x l].
      * now rewrite !boolean_mask_nil_r.
      * destruct b1, b2; simpl; now rewrite IH.
Qed.

Lemma boolean_mask_map {A B : Type} (f : A -> B) (mask : list bool) (l : list A) :
  boolean_mask mask (map f l) = map f (boolean_mask mask l).
Proof.
  revert l.
  induction mask as [|b mask IH]; intros [|x l]; cbn; try reflexivity.
  destruct b; cbn; now rewrite IH.
Qed.

Lemma isin_mask_series (mask : list bool) (s : Series) (values : list scalar) :
  isin (mask_series mask s) values = boolean_mask mask (isin s values).
Proof.
  destruct s; cbn; now rewrite boolean_mask_map.
Qed.

Lemma lookup_mask_rows (mask : list bool) (df : DataFrame) (col : string) :
  lookup col (columns (mask_rows mask df))
  = option_map (mask_series mask) (lookup col (columns df)).
Proof.
  unfold mask_rows; cbn.
  induction (columns df) as [|[n s] cols IH]; cbn; [reflexivity|].
  destruct (String.eqb n col); [reflexivity | exact IH].
Qed.

Lemma getitem_mask_rows (mask : list bool) (df : DataFrame) (col : string) :
  getitem (mask_rows mask df) col
  = (s <- getitem df col ;; Ok (mask_series mask s)).
Proof.
  unfold getitem. rewrite lookup_mask_rows.
  now destruct (lookup col (columns df)).
Qed.

Lemma has_column_getitem (df : DataFrame) (col : string) :
  has_column df col = true -> exists s, getitem df col = Ok s.
Proof.
  unfold has_column, getitem.
  destruct (lookup col (columns df)) as [s|]; [eauto | discriminate].
Qed.

Lemma mask_series_comm (m1 m2 : list bool) (s : Series) :
  mask_series (boolean_mask m1 m2) (mask_series m1 s)
  = mask_series (boolean_mask m2 m1) (mask_series m2 s).
Proof.
  destruct s; cbn; now rewrite boolean_mask_comm.
Qed.

Lemma mask_rows_comm (m1 m2 : list bool) (df : DataFrame) :
  mask_rows (boolean_mask m1 m2) (mask_rows m1 df)
  = mask_rows (boolean_mask m2 m1) (mask_rows m2 df).
Proof.
  unfold mask_rows; cbn. f_equal.
  - apply boolean_mask_comm.
  - rewrite !map_map. apply map_ext. intros [n s]; cbn.
    now rewrite mask_series_comm.
Qed.

(** Filtering by one column and then by another selects the same rows in
    either order. *)
Lemma masks_commute (df : DataFrame) (c1 c2 : string) (s1 s2 : Series)
  (v1 v2 : list scalar) :
  getitem df c1 = Ok s1 ->
  getitem df c2 = Ok s2 ->
  (let f := mask_rows (isin s1 v1) df in
   s <- getitem f c2 ;; Ok (mask_rows (isin s v2) f))
  = (let f := mask_rows (isin s2 v2) df in
     s <- getitem f c1 ;; Ok (mask_rows (isin s v1) f)).
Proof.
  intros H1 H2. cbn zeta.
  rewrite !getitem_mask_rows, H1, H2. cbn.
  rewrite !isin_mask_series. now rewrite mask_rows_comm.
Qed.

(** C9: on a table that has both filter columns, applying the facility
    filter and then the sex filter yields the same subset as applying the sex
    filter and then the facility filter, for every pair of selections. *)
Theorem filters_commute (df : DataFrame) (selected_facilities selected_sexes : list scalar) :
  has_column df "health_facility" = true ->
  has_column df "respondent_sex" = true ->
  (f <- filter_facility selected_facilities df ;; filter_sex selected_sexes f)
  = (f <- filter_sex selected_sexes df ;; filter_facility selected_facilities f).
Proof.
  intros Hf Hs.
  destruct (has_column_getitem _ _ Hf) as [sf Hsf].
  destruct (has_column_getitem _ _ Hs) as [ss Hss].
  unfold filter_facility, filter_sex.
  destruct (truthy selected_facilities && negb (contains selected_facilities (SStr "all")));
    destruct (truthy selected_sexes && negb (contains selected_sexes (SStr "all")));
    rewrite ?Hsf, ?Hss; cbn; rewrite ?Hsf, ?Hss; cbn; try reflexivity.
  apply (masks_commute df _ _ sf ss); assumption.
Qed.

Lemma filters_commute_witness :
  (f <- filter_facility [SStr "A"; SStr "B"] clean_survey ;; filter_sex [SStr "F"] f)
  = (f <- filter_sex [SStr "F"] clean_survey ;; filter_facility [SStr "A"; SStr "B"] f).
Proof.
  apply (filters_commute clean_survey); reflexivity.
Defined.

(** ** Reset and empty selections *)

Lemma filter_facility_all (df : DataFrame) :
  filter_facility all_selected df = Ok df.
Proof. reflexivity. Qed.

Lemma filter_sex_all (df : DataFrame) :
  filter_sex all_selected df = Ok df.
Proof. reflexivity. Qed.


(** C2: an invocation triggered by the reset button returns, whatever
    selections came with it, exactly what an invocation with both selections
    set to the "all" sentinel returns: the same summary, the same two charts
    and the same two dropdown values. *)
Theorem reset_equals_all_all (str_to_float : string -> option Q)
  (argsort : list Q -> list nat)
  (df : DataFrame) (selected_facilities selected_sexes : list scalar)
  (reset_clicks reset_clicks' : nat) (triggered_id : option string) :
  update_dashboard str_to_float argsort df (Some "reset-button")
                   selected_facilities selected_sexes reset_clicks
  = update_dashboard str_to_float argsort df triggered_id
                     all_selected all_selected reset_clicks'.
Proof.
  unfold update_dashboard, select_rows.
  change (is_reset (Some "reset-button")) with true.
  destruct (is_reset triggered_id).
  - reflexivity.
  - rewrite filter_facility_all. cbn [bind].
    rewrite filter_sex_all. reflexivity.
Qed.



(** ** Cleaning *)

Lemma lookup_assign (name col : string) (s : Series) (cols : list (string * Series)) :
  lookup col (assign name s cols)
  = if String.eqb name col then Some s else lookup col cols.
Proof.
  induction cols as [|[n s0] cols IH]; cbn.
  - reflexivity.
  - destruct (String.eqb_spec n name) as [->|Hn]; cbn.
    + now destruct (String.eqb name col).
    + rewrite IH.
      destruct (String.eqb_spec n col) as [->|Hc]; [|reflexivity].
      destruct (String.eqb_spec name col) as [->|]; [now contradiction Hn | reflexivity].
Qed.

Lemma lookup_setitem (df : DataFrame) (name col : string) (s : Series) :
  lookup col (columns (setitem df name s))
  = if String.eqb name col then Some s else lookup col (columns df).
Proof. apply lookup_assign. Qed.

Lemma to_numeric_is_numeric (str_to_float : string -> option Q) (s : Series) :
  exists v, to_numeric str_to_float s = Numeric v.
Proof. destruct s; cbn; eauto. Qed.

Section CleaningInvariant.
Variable str_to_float : string -> option Q.

Lemma map_column_table (df : DataFrame) (out : list output) (col : string) :
  fst (map_column str_to_float (df, out) col)
  = match lookup col (columns df) with
    | Some (Object v) =>
        setitem (setitem df col (replace satisfaction_mapping (Object v))) col
                (to_numeric str_to_float (replace satisfaction_mapping (Object v)))
    | _ => df
    end.
Proof.
  unfold map_column.
  destruct (lookup col (columns df)) as [[v|v]|]; cbn [is_numeric_dtype negb];
    try reflexivity.
  now destruct (isnull_any _).
Qed.

Lemma map_column_establishes (df : DataFrame) (out : list output) (col : string) :
  numeric_at (fst (map_column str_to_float (df, out) col)) col.
Proof.
  rewrite map_column_table. intros s.
  destruct (lookup col (columns df)) as [[v|v]|] eqn:E.
  - rewrite E. intros [= <-]. eauto.
  - rewrite lookup_setitem, String.eqb_refl. intros [= <-]. cbn. eauto.
  - rewrite E. discriminate.
Qed.

Lemma map_column_preserves (df : DataFrame) (out : list output) (col c : string) :
  numeric_at df c -> numeric_at (fst (map_column str_to_float (df, out) col)) c.
Proof.
  intros H. rewrite map_column_table.
  destruct (lookup col (columns df)) as [[v|v]|] eqn:E; try exact H.
  intros s. rewrite !lookup_setitem.
  destruct (String.eqb col c).
  - intros [= <-]. cbn. eauto.
  - apply H.
Qed.

Lemma apply_mapping_numeric (cols : list string) (st : DataFrame * list output) (c : string) :
  In c cols \/ numeric_at (fst st) c ->
  numeric_at (fst (fold_left (map_column str_to_float) cols st)) c.
Proof.
  revert st.
  induction cols as [|col cols IH]; intros [df out] H; cbn [fold_left].
  - destruct H as [[]|H]. exact H.
  - apply IH. destruct H as [[->|H]|H].
    + right. apply map_column_establishes.
    + now left.
    + right. now apply map_column_preserves.
Qed.

Lemma map_column_output_irrelevant (df : DataFrame) (out out' : list output) (col : string) :
  fst (map_column str_to_float (df, out) col)
  = fst (map_column str_to_float (df, out') col).
Proof. now rewrite !map_column_table. Qed.

Lemma apply_mapping_output_irrelevant (cols : list string) (df : DataFrame)
  (out out' : list output) :
  fst (fold_left (map_column str_to_float) cols (df, out))
  = fst (fold_left (map_column str_to_float) cols (df, out')).
Proof.
  revert df out out'.
  induction cols as [|col cols IH]; intros df out out'; cbn [fold_left].
  - reflexivity.
  - pose proof (map_column_output_irrelevant df out out' col) as E.
    destruct (map_column str_to_float (df, out) col) as [d1 o1].
    destruct (map_column str_to_float (df, out') col) as [d2 o2].
    cbn in E. subst d2. apply IH.
Qed.

Lemma map_column_has_column (df : DataFrame) (out : list output) (col c : string) :
  has_column (fst (map_column str_to_float (df, out) col)) c = has_column df c.
Proof.
  rewrite map_column_table. unfold has_column.
  destruct (lookup col (columns df)) as [[v|v]|] eqn:E; try reflexivity.
  rewrite !lookup_setitem.
  destruct (String.eqb_spec col c) as [->|]; [|reflexivity].
  now rewrite E.
Qed.

Lemma apply_mapping_has_column (cols : list string) (st : DataFrame * list output)
  (c : string) :
  has_column (fst (fold_left (map_column str_to_float) cols st)) c
  = has_column (fst st) c.
Proof.
  revert st.
  induction cols as [|col cols IH]; intros [df out]; cbn [fold_left].
  - reflexivity.
  - rewrite IH. apply map_column_has_column.
Qed.

End CleaningInvariant.

(** C3: after the mapping loop, every satisfaction column of the table is a
    numeric column: each of its entries is a number or the missing-value
    marker, and no text remains.  This holds for every input table and every
    behaviour of the text-to-number conversion. *)
Theorem cleaned_satisfaction_columns_numeric (str_to_float : string -> option Q)
  (df : DataFrame) (col : string) (s : Series) :
  In col all_satisfaction_cols ->
  getitem (clean str_to_float df) col = Ok s ->
  exists v : list (option Q), s = Numeric v.
Proof.
  intros Hin Hget.
  assert (N : numeric_at (clean str_to_float df) col).
  { unfold clean, apply_mapping. apply apply_mapping_numeric. now left. }
  apply N. unfold getitem in Hget.
  destruct (lookup col (columns (clean str_to_float df))); now inversion Hget.
Qed.

Lemma cleaned_satisfaction_columns_numeric_witness :
  exists v : list (option Q),
    Numeric [Some 3%Q; Some 2%Q; None] = Numeric v.
Proof.
  apply (cleaned_satisfaction_columns_numeric no_number raw_survey
           "facility_cleanliness_rating").
  - unfold all_satisfaction_cols, care_satisfaction_cols, facility_satisfaction_cols.
    cbn. tauto.
  - reflexivity.
Defined.

(** ** Start-up *)

Lemma missing_cols_spec (df : DataFrame) (col : string) :
  In col (missing_cols df)
  <-> In col (all_satisfaction_cols ++ filter_cols) /\ has_column df col = false.
Proof.
  unfold missing_cols. rewrite filter_In.
  now destruct (has_column df col).
Qed.

Lemma missing_cols_nil (df : DataFrame) :
  missing_cols df = [] <-> has_required_columns df.
Proof.
  split.
  - intros E col Hin. destruct (has_column df col) eqn:H; [reflexivity|].
    assert (In col (missing_cols df)) as Hm by now apply missing_cols_spec.
    rewrite E in Hm. destruct Hm.
  - intros H. destruct (missing_cols df) as [|col l] eqn:E; [reflexivity|].
    assert (In col (missing_cols df)) as Hm by (rewrite E; now left).
    apply missing_cols_spec in Hm. destruct Hm as [Hin Hc].
    rewrite (H col Hin) in Hc. discriminate.
Qed.

(** C8: the script exits at once, having printed a diagnostic, when the
    input file is not found and when any required column (a care or facility
    satisfaction column, [health_facility] or [respondent_sex]) is missing
    from the loaded table; when the file is found and every required column
    is present it goes on to map the table. *)
Theorem startup_exits_or_loads (str_to_float : string -> option Q)
  (data_path : string) :
  script str_to_float data_path None
  = Exited [Line ("Error: " ++ data_path
                  ++ " not found. Please ensure the file exists at this location.")]
  /\
  forall df_orig : DataFrame,
    ((exists col, In col (all_satisfaction_cols ++ filter_cols)
                  /\ has_column df_orig col = false) ->
     script str_to_float data_path (Some df_orig)
     = Exited [Line ("Data loaded successfully from: " ++ data_path);
               Line ("Error: The following required columns are missing from the data: "
                     ++ repr_list (missing_cols df_orig));
               Line "Please check the column names in the CSV file."])
    /\
    (has_required_columns df_orig ->
     loaded str_to_float df_orig (script str_to_float data_path (Some df_orig))).
Proof.
  split; [reflexivity|].
  intros df_orig. split.
  - intros (col & Hin & Hc).
    assert (In col (missing_cols df_orig)) as Hm by now apply missing_cols_spec.
    unfold script. destruct (missing_cols df_orig); [destruct Hm | reflexivity].
  - intros H. apply missing_cols_nil in H.
    unfold script. rewrite H. cbn [truthy].
    pose proof (apply_mapping_output_irrelevant str_to_float all_satisfaction_cols
                  df_orig
                  ([Line ("Data loaded successfully from: " ++ data_path)]
                   ++ [Line (nl ++ "Applying numeric mapping...")]) []) as E.
    fold (apply_mapping str_to_float df_orig
            ([Line ("Data loaded successfully from: " ++ data_path)]
             ++ [Line (nl ++ "Applying numeric mapping...")])) in E.
    fold (apply_mapping str_to_float df_orig []) in E.
    fold (clean str_to_float df_orig) in E.
    destruct (apply_mapping str_to_float df_orig _) as [df out]. cbn [fst] in E.
    assert (M : forall tail, In (Line "Mapping complete.")
                  (out ++ Line "Mapping complete." :: tail)).
    { intros tail. apply in_or_app. right. now left. }
    destruct (dropdown_options "All Facilities" df "health_facility");
      [|apply M].
    destruct (dropdown_options "All Sexes" df "respondent_sex"); [|apply M].
    split; [|exact E].
    apply in_or_app. left. apply M.
Qed.

Lemma startup_exits_or_loads_witness :
  script no_number "survey.csv" (Some no_columns)
  = Exited [Line "Data loaded successfully from: survey.csv";
            Line ("Error: The following required columns are missing from the data: "
                  ++ repr_list (all_satisfaction_cols ++ filter_cols));
            Line "Please check the column names in the CSV file."]
  /\ loaded no_number raw_survey (script no_number "survey.csv" (Some raw_survey)).
Proof.
  destruct (startup_exits_or_loads no_number "survey.csv") as [_ H].
  split.
  - apply (H no_columns).
    exists "health_facility". split; [|reflexivity].
    unfold all_satisfaction_cols, care_satisfaction_cols,
      facility_satisfaction_cols, filter_cols. simpl. tauto.
  - apply (H raw_survey).
    intros col Hin.
    unfold all_satisfaction_cols, care_satisfaction_cols,
      facility_satisfaction_cols, filter_cols in Hin. simpl in Hin.
    repeat (destruct Hin as [<-|Hin]; [reflexivity|]). destruct Hin.
Defined.

(** ** Insertion sort *)

Section InsertionSortFacts.
Context {A : Type}.
Variable ltb : A -> A -> bool.

Lemma insert_perm (x : A) (l : list A) : Permutation (x :: l) (insert ltb x l).
Proof.
  induction l as [|y l IH]; cbn.
  - reflexivity.
  - destruct (ltb x y); [reflexivity|].
    rewrite perm_swap. now constructor.
Qed.

Lemma fold_insert_perm (l acc : list A) :
  Permutation (acc ++ l) (fold_left (fun acc x => insert ltb x acc) l acc).
Proof.
  revert acc.
  induction l as [|x l IH]; intros acc; cbn.
  - now rewrite app_nil_r.
  - rewrite <- IH, <- insert_perm.
    symmetry. apply Permutation_middle.
Qed.

Lemma insertion_sort_perm (l : list A) : Permutation l (insertion_sort ltb l).
Proof. exact (fold_insert_perm l []). Qed.

(** From here on [ltb] is the strict part of a total preorder. *)
Variable le : A -> A -> Prop.
Hypothesis le_trans : forall a b c, le a b -> le b c -> le a c.
Hypothesis ltb_true : forall a b, ltb a b = true -> le a b /\ ~ le b a.
Hypothesis ltb_false : forall a b, ltb a b = false -> le b a.

Lemma insert_sorted (x : A) (l : list A) :
  StronglySorted le l -> StronglySorted le (insert ltb x l).
Proof.
  induction 1 as [|y l Hs IH Hy]; cbn.
  - repeat constructor.
  - destruct (ltb x y) eqn:E.
    + apply ltb_true in E. destruct E as [E _].
      constructor; [now constructor|].
      constructor; [exact E|].
      eapply Forall_impl; [|exact Hy]. intros z Hz. now apply le_trans with y.
    + apply ltb_false in E.
      constructor; [exact IH|].
      apply (Permutation_Forall (insert_perm x l)).
      now constructor.
Qed.

Lemma fold_insert_sorted (l acc : list A) :
  StronglySorted le acc ->
  StronglySorted le (fold_left (fun acc x => insert ltb x acc) l acc).
Proof.
  revert acc.
  induction l as [|x l IH]; intros acc H; cbn; [exact H|].
  apply IH. now apply insert_sorted.
Qed.

Lemma insertion_sort_sorted (l : list A) : StronglySorted le (insertion_sort ltb l).
Proof. apply fold_insert_sorted. constructor. Qed.

End InsertionSortFacts.

(** ** Sorting a series of means *)





(** *** Indexing by a list of positions *)







(** *** The result of [sort_values], whatever [argsort] does *)






(** *** The result of [sort_values], for an [argsort] that sorts *)





(** *** Two ways to sort positions *)










(** ** Structure of the callback *)

Lemma lookup_same_schema_has_column (f df : DataFrame) (c : string) :
  same_schema f df -> has_column f c = has_column df c.
Proof.
  intros H. specialize (H c). unfold has_column.
  destruct (lookup c (columns f)), (lookup c (columns df)); cbn in H;
    congruence.
Qed.

Lemma same_schema_refl (df : DataFrame) : same_schema df df.
Proof. intros c. reflexivity. Qed.

Lemma same_schema_trans (a b c : DataFrame) :
  same_schema a b -> same_schema b c -> same_schema a c.
Proof. intros H1 H2 x. now rewrite H1. Qed.

Lemma same_schema_mask_rows (mask : list bool) (df : DataFrame) :
  same_schema (mask_rows mask df) df.
Proof.
  intros c. rewrite lookup_mask_rows.
  now destruct (lookup c (columns df)) as [[v|v]|].
Qed.

Lemma numeric_columns_same_schema (f df : DataFrame) (cols : list string) :
  same_schema f df -> numeric_columns f cols = numeric_columns df cols.
Proof.
  intros H. unfold numeric_columns. apply filter_ext. intros c.
  specialize (H c).
  destruct (lookup c (columns f)) as [[v|v]|],
           (lookup c (columns df)) as [[w|w]|]; cbn in H; congruence.
Qed.

Lemma boolean_mask_length {A : Type} (mask : list bool) (l : list A) :
  (List.length (boolean_mask mask l) <= List.length l)%nat.
Proof.
  revert l.
  induction mask as [|b mask IH]; intros [|x l]; cbn; try lia.
  specialize (IH l). destruct b; cbn; lia.
Qed.

Lemma len_mask_rows (mask : list bool) (df : DataFrame) :
  (len (mask_rows mask df) <= len df)%nat.
Proof. apply boolean_mask_length. Qed.

Lemma filter_facility_subtable (sel : list scalar) (df f : DataFrame) :
  filter_facility sel df = Ok f ->
  same_schema f df /\ (len f <= len df)%nat.
Proof.
  unfold filter_facility.
  destruct (truthy sel && negb (contains sel (SStr "all"))).
  - destruct (getitem df "health_facility") as [s|]; cbn; [|discriminate].
    intros [= <-]. split; [apply same_schema_mask_rows | apply len_mask_rows].
  - intros [= <-]. split; [apply same_schema_refl | lia].
Qed.

Lemma filter_sex_subtable (sel : list scalar) (df f : DataFrame) :
  filter_sex sel df = Ok f ->
  same_schema f df /\ (len f <= len df)%nat.
Proof.
  unfold filter_sex.
  destruct (truthy sel && negb (contains sel (SStr "all"))).
  - destruct (getitem df "respondent_sex") as [s|]; cbn; [|discriminate].
    intros [= <-]. split; [apply same_schema_mask_rows | apply len_mask_rows].
  - intros [= <-]. split; [apply same_schema_refl | lia].
Qed.

Lemma filter_facility_defined (sel : list scalar) (df : DataFrame) :
  has_column df "health_facility" = true -> exists f, filter_facility sel df = Ok f.
Proof.
  intros H. destruct (has_column_getitem _ _ H) as [s Hs].
  unfold filter_facility. rewrite Hs.
  destruct (truthy sel && negb (contains sel (SStr "all"))); cbn; eauto.
Qed.

Lemma filter_sex_defined (sel : list scalar) (df : DataFrame) :
  has_column df "respondent_sex" = true -> exists f, filter_sex sel df = Ok f.
Proof.
  intros H. destruct (has_column_getitem _ _ H) as [s Hs].
  unfold filter_sex. rewrite Hs.
  destruct (truthy sel && negb (contains sel (SStr "all"))); cbn; eauto.
Qed.

Lemma select_rows_subtable (df : DataFrame) (triggered_id : option string)
  (fac sex fs ss : list scalar) (fdf : DataFrame) :
  select_rows df triggered_id fac sex = Ok (fs, ss, fdf) ->
  same_schema fdf df /\ (len fdf <= len df)%nat
  /\ (if is_reset triggered_id then all_selected else fs) = fs
  /\ (if is_reset triggered_id then all_selected else ss) = ss.
Proof.
  unfold select_rows. destruct (is_reset triggered_id).
  - intros [= <- <- <-].
    split; [apply same_schema_refl | split; [lia | split; reflexivity]].
  - destruct (filter_facility fac df) as [f1|] eqn:E1; cbn; [|discriminate].
    destruct (filter_sex sex f1) as [f2|] eqn:E2; cbn; [|discriminate].
    intros [= <- <- <-].
    apply filter_facility_subtable in E1. apply filter_sex_subtable in E2.
    destruct E1 as [S1 L1], E2 as [S2 L2].
    split; [now apply same_schema_trans with f1 | split; [lia | split; reflexivity]].
Qed.

Lemma select_rows_defined (df : DataFrame) (triggered_id : option string)
  (fac sex : list scalar) :
  has_column df "health_facility" = true ->
  has_column df "respondent_sex" = true ->
  exists fs ss fdf, select_rows df triggered_id fac sex = Ok (fs, ss, fdf).
Proof.
  intros Hf Hs. unfold select_rows. destruct (is_reset triggered_id); [eauto|].
  destruct (filter_facility_defined fac df Hf) as [f1 E1]. rewrite E1. cbn.
  assert (Hs1 : has_column f1 "respondent_sex" = true).
  { apply filter_facility_subtable in E1. destruct E1 as [S _].
    now rewrite (lookup_same_schema_has_column _ _ _ S). }
  destruct (filter_sex_defined sex f1 Hs1) as [f2 E2]. rewrite E2. cbn. eauto.
Qed.

Lemma filtered_subset_select_rows (df : DataFrame) (triggered_id : option string)
  (fac sex : list scalar) (fdf : DataFrame) :
  filtered_subset df triggered_id fac sex = Ok fdf ->
  exists fs ss, select_rows df triggered_id fac sex = Ok (fs, ss, fdf).
Proof.
  unfold filtered_subset.
  destruct (select_rows df triggered_id fac sex) as [[[fs ss] f]|]; cbn;
    [|discriminate].
  intros [= <-]. eauto.
Qed.

Section CallbackStructure.
Variable str_to_float : string -> option Q.
Variable argsort : list Q -> list nat.

Lemma update_dashboard_empty (df : DataFrame) (triggered_id : option string)
  (fac sex : list scalar) (reset_clicks : nat) (fs ss : list scalar)
  (fdf : DataFrame) :
  select_rows df triggered_id fac sex = Ok (fs, ss, fdf) ->
  empty fdf = true ->
  update_dashboard str_to_float argsort df triggered_id fac sex reset_clicks
  = Ok (mkOutputs (Message "No data matches the selected filters.")
                  (Placeholder "No data to display")
                  (Placeholder "No data to display") fs ss).
Proof.
  intros Hsel Hempty. unfold update_dashboard. rewrite Hsel. cbn [bind].
  rewrite Hempty.
  destruct (select_rows_subtable _ _ _ _ _ _ _ Hsel) as (_ & _ & -> & ->).
  reflexivity.
Qed.

Lemma update_dashboard_nonempty (df : DataFrame) (triggered_id : option string)
  (fac sex : list scalar) (reset_clicks : nat) (fs ss : list scalar)
  (fdf : DataFrame) :
  select_rows df triggered_id fac sex = Ok (fs, ss, fdf) ->
  empty fdf = false ->
  update_dashboard str_to_float argsort df triggered_id fac sex reset_clicks
  = (overall <- getitem fdf "overall_satisfaction_rating" ;;
     avg <- series_mean overall ;;
     care_means <- group_means argsort fdf care_satisfaction_cols ;;
     facility_means <- group_means argsort fdf facility_satisfaction_cols ;;
     Ok (mkOutputs
           (Card (len fdf) avg (or_not_available (global_max_score str_to_float df)))
           (make_figure care_means "Average Care Satisfaction Scores"
                        "No numeric care data to display")
           (make_figure facility_means "Average Facility Satisfaction Scores"
                        "No numeric facility data to display")
           fs ss)).
Proof.
  intros Hsel Hempty. unfold update_dashboard. rewrite Hsel. cbn [bind].
  rewrite Hempty.
  destruct (select_rows_subtable _ _ _ _ _ _ _ Hsel) as (_ & _ & -> & ->).
  reflexivity.
Qed.

End CallbackStructure.




Lemma column_means_defined (df : DataFrame) (cols : list string) :
  (forall c, In c cols -> has_column df c = true) ->
  exists means, column_means df cols = Ok means.
Proof.
  intros H. unfold column_means.
  assert (G : exists sub, getitems df cols = Ok sub).
  { unfold getitems. induction cols as [|c cols IH]; cbn [mapM]; [eauto|].
    destruct (has_column_getitem df c) as [s Hs]; [apply H; now left|].
    rewrite Hs. cbn [bind].
    destruct IH as [sub Hsub]; [intros x Hx; apply H; now right|].
    rewrite Hsub. cbn [bind]. eauto. }
  destruct G as [sub ->]. cbn [bind]. eauto.
Qed.



Lemma group_means_inv (argsort : list Q -> list nat) (df : DataFrame)
  (cols : list string) (sorted_means : list (string * option Q)) :
  group_means argsort df cols = Ok sorted_means ->
  exists means, column_means df cols = Ok means
                /\ sorted_means = sort_values_descending argsort means.
Proof.
  unfold group_means.
  destruct (column_means df cols) as [means|]; cbn; [|discriminate].
  intros [= <-]. eauto.
Qed.

Lemma update_dashboard_inv (str_to_float : string -> option Q)
  (argsort : list Q -> list nat) (df : DataFrame)
  (triggered_id : option string) (fac sex : list scalar) (reset_clicks : nat)
  (fs ss : list scalar) (fdf : DataFrame) (o : outputs) :
  select_rows df triggered_id fac sex = Ok (fs, ss, fdf) ->
  empty fdf = false ->
  update_dashboard str_to_float argsort df triggered_id fac sex reset_clicks = Ok o ->
  exists overall avg care_means facility_means,
    getitem fdf "overall_satisfaction_rating" = Ok overall
    /\ series_mean overall = Ok avg
    /\ column_means fdf care_satisfaction_cols = Ok care_means
    /\ column_means fdf facility_satisfaction_cols = Ok facility_means
    /\ o = mkOutputs
             (Card (len fdf) avg
                   (or_not_available (global_max_score str_to_float df)))
             (make_figure (sort_values_descending argsort care_means)
                          "Average Care Satisfaction Scores"
                          "No numeric care data to display")
             (make_figure (sort_values_descending argsort facility_means)
                          "Average Facility Satisfaction Scores"
                          "No numeric facility data to display")
             fs ss.
Proof.
  intros Hsel Hempty.
  rewrite (update_dashboard_nonempty _ _ _ _ _ _ _ _ _ _ Hsel Hempty).
  destruct (getitem fdf "overall_satisfaction_rating") as [overall|] eqn:Eo;
    cbn [bind]; [|discriminate].
  destruct (series_mean overall) as [avg|] eqn:Ea; cbn [bind]; [|discriminate].
  destruct (group_means argsort fdf care_satisfaction_cols) as [cm|] eqn:Ec;
    cbn [bind]; [|discriminate].
  destruct (group_means argsort fdf facility_satisfaction_cols) as [fm|] eqn:Ef;
    cbn [bind]; [|discriminate].
  intros [= <-].
  apply group_means_inv in Ec, Ef.
  destruct Ec as (care & Hc & ->), Ef as (facility & Hf & ->).
  exists overall, avg, care, facility.
  repeat split; assumption.
Qed.

(** ** Charts *)




(** ** Degraded outputs *)

Lemma care_cols_required (c : string) :
  In c care_satisfaction_cols -> In c (all_satisfaction_cols ++ filter_cols).
Proof.
  intros H. apply in_or_app. left. apply in_or_app. now left.
Qed.

Lemma facility_cols_required (c : string) :
  In c facility_satisfaction_cols -> In c (all_satisfaction_cols ++ filter_cols).
Proof.
  intros H. apply in_or_app. left. apply in_or_app. now right.
Qed.

Lemma filter_cols_required (df : DataFrame) :
  has_required_columns df ->
  has_column df "health_facility" = true /\ has_column df "respondent_sex" = true.
Proof.
  intros H. split; apply H; apply in_or_app; right; cbn; tauto.
Qed.


Lemma update_dashboard_defined (str_to_float : string -> option Q)
  (argsort : list Q -> list nat)
  (df : DataFrame) (triggered_id : option string) (fac sex : list scalar)
  (reset_clicks : nat) (fs ss : list scalar) (fdf : DataFrame)
  (overall : Series) (avg : option Q) :
  has_required_columns df ->
  select_rows df triggered_id fac sex = Ok (fs, ss, fdf) ->
  empty fdf = false ->
  getitem fdf "overall_satisfaction_rating" = Ok overall ->
  series_mean overall = Ok avg ->
  exists care_means facility_means,
    column_means fdf care_satisfaction_cols = Ok care_means
    /\ column_means fdf facility_satisfaction_cols = Ok facility_means
    /\ update_dashboard str_to_float argsort df triggered_id fac sex reset_clicks
       = Ok (mkOutputs
               (Card (len fdf) avg
                     (or_not_available (global_max_score str_to_float df)))
               (make_figure (sort_values_descending argsort care_means)
                            "Average Care Satisfaction Scores"
                            "No numeric care data to display")
               (make_figure (sort_values_descending argsort facility_means)
                            "Average Facility Satisfaction Scores"
                            "No numeric facility data to display")
               fs ss).
Proof.
  intros Hreq Hsel Hempty Hov Havg.
  rewrite (update_dashboard_nonempty _ _ _ _ _ _ _ _ _ _ Hsel Hempty).
  rewrite Hov. cbn [bind]. rewrite Havg. cbn [bind].
  destruct (select_rows_subtable _ _ _ _ _ _ _ Hsel) as (Hschema & _).
  assert (Hcols : forall c, In c (all_satisfaction_cols ++ filter_cols) ->
                            has_column fdf c = true).
  { intros c Hc. rewrite (lookup_same_schema_has_column _ _ _ Hschema).
    now apply Hreq. }
  destruct (column_means_defined fdf care_satisfaction_cols) as [care Hcare].
  { intros c Hc. apply Hcols. now apply care_cols_required. }
  destruct (column_means_defined fdf facility_satisfaction_cols)
    as [facility Hfacility].
  { intros c Hc. apply Hcols. now apply facility_cols_required. }
  exists care, facility. split; [exact Hcare|]. split; [exact Hfacility|].
  unfold group_means. rewrite Hcare, Hfacility. reflexivity.
Qed.

Ltac required_columns :=
  let col := fresh "col" in
  let Hin := fresh "Hin" in
  intros col Hin;
  unfold all_satisfaction_cols, care_satisfaction_cols,
    facility_satisfaction_cols, filter_cols in Hin;
  simpl in Hin;
  repeat (destruct Hin as [<-|Hin]; [reflexivity|]);
  destruct Hin.





(** ** Means and maxima *)


Lemma In_dropna (v : list (option Q)) (q : Q) :
  In q (dropna v) <-> In (Some q) v.
Proof.
  unfold dropna. rewrite in_flat_map. split.
  - intros ([x|] & Hx & Hq); cbn in Hq; [|tauto].
    destruct Hq as [->|[]]. exact Hx.
  - intros H. exists (Some q). split; [exact H | now left].
Qed.

Lemma greater_cases (a b : Q) :
  (greater a b = b /\ (a <= b)%Q) \/ (greater a b = a /\ (b <= a)%Q).
Proof.
  unfold greater. destruct (Qle_bool a b) eqn:E.
  - left. split; [reflexivity | now apply Qle_bool_iff].
  - right. split; [reflexivity|].
    apply Qlt_le_weak, Qnot_le_lt. intros L.
    apply Qle_bool_iff in L. congruence.
Qed.

Lemma fold_greater_max (xs : list Q) (x : Q) :
  In (fold_left greater xs x) (x :: xs)
  /\ forall y, In y (x :: xs) -> (y <= fold_left greater xs x)%Q.
Proof.
  revert x.
  induction xs as [|z xs IH]; intros x; cbn [fold_left].
  - split; [now left|]. intros y [<-|[]]. apply Qle_refl.
  - destruct (IH (greater x z)) as [Hin Hmax]. split.
    + destruct Hin as [Hin|Hin]; [|right; now right].
      rewrite <- Hin.
      destruct (greater_cases x z) as [[-> _]|[-> _]];
        [right; now left | now left].
    + assert (Hx : (x <= greater x z)%Q /\ (z <= greater x z)%Q).
      { destruct (greater_cases x z) as [[-> L]|[-> L]];
          split; try exact L; apply Qle_refl. }
      intros y [<-|[<-|Hy]].
      * apply Qle_trans with (greater x z); [apply Hx | apply Hmax; now left].
      * apply Qle_trans with (greater x z); [apply Hx | apply Hmax; now left].
      * apply Hmax. now right.
Qed.

Lemma nanmax_spec (v : list (option Q)) : observed_maximum v (nanmax v).
Proof.
  unfold nanmax, observed_maximum.
  destruct (dropna v) as [|x xs] eqn:E.
  - intros q Hq. apply In_dropna in Hq. rewrite E in Hq. destruct Hq.
  - destruct (fold_greater_max xs x) as [Hin Hmax]. split.
    + apply In_dropna. now rewrite E.
    + intros y Hy. apply Hmax. rewrite <- E. now apply In_dropna.
Qed.

Lemma or_not_available_spec (m : option Q) : shows_maximum m (or_not_available m).
Proof.
  destruct m as [q|]; cbn; [|reflexivity].
  destruct (Qeq_bool q 0) eqn:E.
  - split; [reflexivity|]. intros N. apply Qeq_bool_iff in E. contradiction.
  - split; [|reflexivity]. intros Z. apply Qeq_bool_iff in Z. congruence.
Qed.

Lemma well_formed_lookup (df : DataFrame) (c : string) (s : Series) :
  well_formed df = true ->
  lookup c (columns df) = Some s ->
  series_len s = len df.
Proof.
  unfold well_formed. generalize (len df). intros n.
  induction (columns df) as [|[k s0] cols IH]; cbn; [discriminate|].
  rewrite andb_true_iff. intros [H0 Hrest].
  destruct (String.eqb k c).
  - intros [= <-]. now apply Nat.eqb_eq.
  - now apply IH.
Qed.

Lemma empty_false_len (df : DataFrame) : empty df = false -> len df <> 0%nat.
Proof.
  unfold empty. rewrite orb_false_iff. intros [H _].
  now apply Nat.eqb_neq.
Qed.

Lemma global_max_score_numeric (str_to_float : string -> option Q)
  (df : DataFrame) (v : list (option Q)) :
  getitem df "overall_satisfaction_rating" = Ok (Numeric v) ->
  v <> [] ->
  global_max_score str_to_float df = nanmax v.
Proof.
  intros H N. unfold global_max_score. rewrite H. cbn.
  destruct v; [now contradiction N | reflexivity].
Qed.

Lemma update_dashboard_selects (str_to_float : string -> option Q)
  (argsort : list Q -> list nat)
  (df : DataFrame) (triggered_id : option string) (fac sex : list scalar)
  (reset_clicks : nat) (o : outputs) :
  update_dashboard str_to_float argsort df triggered_id fac sex reset_clicks = Ok o ->
  exists fs ss fdf, select_rows df triggered_id fac sex = Ok (fs, ss, fdf).
Proof.
  unfold update_dashboard.
  destruct (select_rows df triggered_id fac sex) as [[[fs ss] fdf]|];
    [eauto | discriminate].
Qed.

(** ** The summary card *)

(** C1 (amended): whenever the summary card is shown, its "out of"
    denominator is determined by the overall-satisfaction column of the full,
    unfiltered table, whatever the selections: it shows the largest
    non-missing entry of that column, except that a largest entry equal to
    zero reads "N/A". *)
Theorem denominator_is_global_maximum (str_to_float : string -> option Q)
  (argsort : list Q -> list nat)
  (df : DataFrame) (triggered_id : option string)
  (selected_facilities selected_sexes : list scalar) (reset_clicks : nat)
  (o : outputs) (n : nat) (avg : option Q) (d : denominator)
  (v : list (option Q)) :
  well_formed df = true ->
  getitem df "overall_satisfaction_rating" = Ok (Numeric v) ->
  update_dashboard str_to_float argsort df triggered_id
                   selected_facilities selected_sexes reset_clicks = Ok o ->
  summary_card o = Card n avg d ->
  exists m, observed_maximum v m /\ shows_maximum m d.
Proof.
  intros Hwf Hcol Hrun Hcard.
  destruct (update_dashboard_selects _ _ _ _ _ _ _ _ Hrun) as (fs & ss & fdf & Hsel).
  destruct (empty fdf) eqn:Hempty.
  - rewrite (update_dashboard_empty _ _ _ _ _ _ _ _ _ _ Hsel Hempty) in Hrun.
    injection Hrun as <-. discriminate Hcard.
  - destruct (update_dashboard_inv _ _ _ _ _ _ _ _ _ _ _ Hsel Hempty Hrun)
      as (overall & avg' & care & facility & _ & _ & _ & _ & ->).
    cbn [summary_card] in Hcard. injection Hcard as _ _ <-.
    assert (Hv : v <> []).
    { intros ->. unfold getitem in Hcol.
      destruct (lookup "overall_satisfaction_rating" (columns df)) as [s|] eqn:E;
        [|discriminate].
      injection Hcol as ->.
      pose proof (well_formed_lookup _ _ _ Hwf E) as L. cbn in L.
      apply empty_false_len in Hempty.
      destruct (select_rows_subtable _ _ _ _ _ _ _ Hsel) as (_ & Hle & _).
      lia. }
    rewrite (global_max_score_numeric _ _ _ Hcol Hv).
    exists (nanmax v). split; [apply nanmax_spec | apply or_not_available_spec].
Qed.

(** The filtered subset holds only the respondent who rated 2, yet the card
    reads "out of 3", the maximum over all respondents. *)
Lemma denominator_is_global_maximum_witness :
  exists m, observed_maximum [Some 3%Q; Some 2%Q; None] m
            /\ shows_maximum m (Score (Some 3%Q)).
Proof.
  eapply (denominator_is_global_maximum no_number insertion_argsort clean_survey
            (Some "facility-dropdown") [SStr "B"] all_selected 0);
    reflexivity.
Defined.

(** C1 as stated fails: when every overall rating is zero the observed
    maximum is zero, but the card shows "N/A". *)
Lemma zero_maximum_reads_not_available :
  exists o,
    update_dashboard no_number insertion_argsort zero_survey None all_selected all_selected 0
    = Ok o
    /\ getitem zero_survey "overall_satisfaction_rating"
       = Ok (Numeric [Some 0%Q])
    /\ observed_maximum [Some 0%Q] (Some 0%Q)
    /\ summary_card o = Card 1 (Some 0%Q) NotAvailable
    /\ summary_card o <> Card 1 (Some 0%Q) (Score (Some 0%Q)).
Proof.
  eexists. split; [reflexivity|].
  split; [reflexivity|].
  split.
  - split; [now left|]. intros x [[= <-]|[]]. apply Qle_refl.
  - split; [reflexivity | discriminate].
Qed.

(** ** Means *)





(** ** The "all" sentinel and the dropdown values *)

Lemma scalar_eqb_refl (x : scalar) : scalar_eqb x x = true.
Proof. destruct x; cbn; [apply Qeq_bool_refl | apply String.eqb_refl]. Qed.

Lemma scalar_eqb_sym (x y : scalar) : scalar_eqb x y = scalar_eqb y x.
Proof.
  destruct x, y; cbn; try reflexivity;
    [apply Qeq_bool_comm | apply String.eqb_sym].
Qed.

Lemma scalar_eqb_trans (x y z : scalar) :
  scalar_eqb x y = true -> scalar_eqb y z = true -> scalar_eqb x z = true.
Proof.
  destruct x, y, z; cbn; try discriminate.
  - apply Qeq_bool_trans.
  - intros H1 H2. apply String.eqb_eq in H1, H2. subst. apply String.eqb_refl.
Qed.

Lemma contains_In (l : list scalar) (x : scalar) :
  In x l -> contains l x = true.
Proof.
  intros H. unfold contains. apply existsb_exists.
  exists x. split; [exact H | apply scalar_eqb_refl].
Qed.

Lemma contains_unique (l : list scalar) (x : scalar) :
  contains (unique l) x = contains l x.
Proof.
  unfold contains.
  induction l as [|y l IH]; cbn; [reflexivity|].
  destruct (scalar_eqb x y) eqn:E; cbn; [reflexivity|].
  rewrite <- IH. clear IH.
  induction (unique l) as [|z u IHu]; cbn; [reflexivity|].
  destruct (scalar_eqb y z) eqn:Eyz; cbn.
  - rewrite IHu.
    destruct (scalar_eqb x z) eqn:Exz; [|reflexivity].
    rewrite scalar_eqb_sym in Eyz.
    now rewrite (scalar_eqb_trans x z y Exz Eyz) in E.
  - now rewrite IHu.
Qed.

Lemma existsb_Permutation {A : Type} (f : A -> bool) (l l' : list A) :
  Permutation l l' -> existsb f l = existsb f l'.
Proof.
  induction 1 as [|x l l' _ IH|x y l|l l' l'' _ IH1 _ IH2]; cbn.
  - reflexivity.
  - now rewrite IH.
  - now destruct (f x), (f y).
  - now rewrite IH1.
Qed.

Lemma contains_dimension_values (s : Series) (vals : list scalar) (x : scalar) :
  dimension_values s = Ok vals ->
  contains vals x = contains (present_values s) x.
Proof.
  unfold dimension_values, sorted.
  destruct (forallb is_snum _ || forallb is_sstr _); [|discriminate].
  intros [= <-]. rewrite <- (contains_unique (present_values s)). unfold contains.
  symmetry. apply existsb_Permutation, insertion_sort_perm.
Qed.

Lemma isin_every_value (s : Series) (vals : list scalar) :
  isnull_any s = false ->
  dimension_values s = Ok vals ->
  Forall (fun b => b = true) (isin s vals)
  /\ List.length (isin s vals) = series_len s.
Proof.
  intros Hnull Hvals.
  assert (C : forall x, In x (present_values s) -> contains vals x = true).
  { intros x Hx. rewrite (contains_dimension_values s vals x Hvals).
    now apply contains_In. }
  clear Hvals.
  destruct s as [v|v]; cbn [isin series_len]; rewrite length_map;
    (split; [|reflexivity]); cbn [isnull_any present_values] in Hnull, C.
  - induction v as [|[q|] v IH]; cbn in Hnull, C |- *.
    + constructor.
    + constructor; [apply C; now left|].
      apply IH; [exact Hnull|]. intros x Hx. apply C. now right.
    + discriminate Hnull.
  - induction v as [|[q|x|] v IH]; cbn in Hnull, C |- *.
    + constructor.
    + constructor; [apply C; now left|].
      apply IH; [exact Hnull|]. intros y Hy. apply C. now right.
    + constructor; [apply C; now left|].
      apply IH; [exact Hnull|]. intros y Hy. apply C. now right.
    + discriminate Hnull.
Qed.

Lemma boolean_mask_all_true {A : Type} (mask : list bool) (l : list A) :
  Forall (fun b => b = true) mask ->
  (List.length l <= List.length mask)%nat ->
  boolean_mask mask l = l.
Proof.
  intros H. revert l.
  induction H as [|b mask Hb _ IH]; intros [|x l] Hl; cbn in *;
    try reflexivity; try lia.
  subst b. rewrite IH by lia. reflexivity.
Qed.

Lemma mask_rows_all_true (mask : list bool) (df : DataFrame) :
  well_formed df = true ->
  Forall (fun b => b = true) mask ->
  List.length mask = len df ->
  mask_rows mask df = df.
Proof.
  intros Hwf Hall Hlen. destruct df as [idx cols]. unfold mask_rows. cbn in *.
  f_equal.
  - apply boolean_mask_all_true; [exact Hall | unfold len in Hlen; cbn in Hlen; lia].
  - unfold well_formed, len in Hwf. cbn in Hwf. unfold len in Hlen. cbn in Hlen.
    induction cols as [|[n s] cols IH]; cbn in *; [reflexivity|].
    apply andb_true_iff in Hwf. destruct Hwf as [Hs Hrest].
    apply Nat.eqb_eq in Hs.
    rewrite IH by exact Hrest. f_equal. f_equal.
    destruct s as [v|v]; cbn in *; f_equal;
      apply boolean_mask_all_true; try exact Hall; lia.
Qed.

Lemma select_every_value (df : DataFrame) (col : string) (s : Series)
  (vals : list scalar) :
  well_formed df = true ->
  getitem df col = Ok s ->
  isnull_any s = false ->
  dimension_values s = Ok vals ->
  mask_rows (isin s vals) df = df.
Proof.
  intros Hwf Hcol Hnull Hvals.
  destruct (isin_every_value s vals Hnull Hvals) as [Hall Hlen].
  apply mask_rows_all_true; [exact Hwf | exact Hall |].
  rewrite Hlen. unfold getitem in Hcol.
  destruct (lookup col (columns df)) as [s'|] eqn:E; [|discriminate].
  injection Hcol as ->. now apply well_formed_lookup with col.
Qed.

(** C5 (amended): on a filter dimension (facility, sex) in which no
    respondent has a missing value, selecting every value the dropdown
    offers for that dimension yields the same subset as selecting the "all"
    sentinel.  (Respondents with a missing value are kept by "all" and
    dropped by any explicit selection.) *)
Theorem all_equals_every_value (df : DataFrame) :
  well_formed df = true ->
  (forall s vals,
      getitem df "health_facility" = Ok s ->
      isnull_any s = false ->
      dimension_values s = Ok vals ->
      filter_facility vals df = filter_facility all_selected df)
  /\
  (forall s vals,
      getitem df "respondent_sex" = Ok s ->
      isnull_any s = false ->
      dimension_values s = Ok vals ->
      filter_sex vals df = filter_sex all_selected df).
Proof.
  intros Hwf. split; intros s vals Hcol Hnull Hvals.
  - rewrite filter_facility_all. unfold filter_facility.
    destruct (truthy vals && negb (contains vals (SStr "all"))); [|reflexivity].
    rewrite Hcol. cbn [bind].
    now rewrite (select_every_value df _ s vals Hwf Hcol Hnull Hvals).
  - rewrite filter_sex_all. unfold filter_sex.
    destruct (truthy vals && negb (contains vals (SStr "all"))); [|reflexivity].
    rewrite Hcol. cbn [bind].
    now rewrite (select_every_value df _ s vals Hwf Hcol Hnull Hvals).
Qed.

Lemma all_equals_every_value_witness :
  filter_facility [SStr "A"; SStr "B"] text_facility_survey
  = filter_facility all_selected text_facility_survey
  /\ filter_sex [SStr "F"; SStr "M"] text_facility_survey
     = filter_sex all_selected text_facility_survey.
Proof.
  destruct (all_equals_every_value text_facility_survey eq_refl) as [Hf Hs].
  split.
  - apply (Hf (Object [Str "A"; Str "B"])); reflexivity.
  - apply (Hs (Object [Str "M"; Str "F"])); reflexivity.
Defined.

(** C5 as stated fails: in [partial_survey] the only facility value present
    is "A"; selecting it keeps one respondent, while "all" keeps both,
    including the one with no recorded facility. *)
Lemma all_keeps_missing_facility :
  well_formed partial_survey = true
  /\ getitem partial_survey "health_facility" = Ok (Object [Str "A"; NaN])
  /\ dimension_values (Object [Str "A"; NaN]) = Ok [SStr "A"]
  /\ (f <- filter_facility [SStr "A"] partial_survey ;; Ok (index f)) = Ok [0%nat]
  /\ (f <- filter_facility all_selected partial_survey ;; Ok (index f))
     = Ok [0%nat; 1%nat]
  /\ filter_facility [SStr "A"] partial_survey
     <> filter_facility all_selected partial_survey.
Proof.
  repeat (split; [reflexivity|]).
  intros H. vm_compute in H. discriminate H.
Qed.

(** ** Worked examples *)

(** Larger means first, ties in input order, missing means last. *)
Example sort_values_descending_example :
  sort_values_descending insertion_argsort
    [("a", Some 1%Q); ("b", None); ("c", Some 3%Q); ("d", Some 1%Q);
     ("e", Some 3%Q); ("f", None); ("g", Some 2%Q)]
  = [("c", Some 3%Q); ("e", Some 3%Q); ("g", Some 2%Q); ("a", Some 1%Q);
     ("d", Some 1%Q); ("b", None); ("f", None)].
Proof. reflexivity. Qed.

(** Facilities A and B, sexes M and F: selecting facility A and sex M keeps
    exactly the first respondent, whose overall rating 3 is shown out of 3. *)
Example single_respondent_example :
  let df := survey [Str "A"; Str "B"] [Str "M"; Str "F"]
                   (Numeric [Some 3%Q; Some 1%Q])
                   (Numeric [Some 2%Q; Some 0%Q]) in
  (f <- filtered_subset df (Some "sex-dropdown") [SStr "A"] [SStr "M"] ;;
   Ok (index f)) = Ok [0%nat]
  /\ (o <- update_dashboard no_number insertion_argsort df (Some "sex-dropdown")
                            [SStr "A"] [SStr "M"] 0 ;;
      Ok (summary_card o)) = Ok (Card 1 (Some 3%Q) (Score (Some 3%Q))).
Proof. split; reflexivity. Qed.

(** Text ratings are mapped to scores; what is neither a known label nor a
    number becomes missing. *)
Example mapping_example :
  getitem clean_survey "facility_condition_rating"
  = Ok (Numeric [Some 3%Q; Some 2%Q; None]).
Proof. reflexivity. Qed.

(** A facility column mixing text and numbers cannot be sorted into
    dropdown options. *)
Example mixed_values_example :
  dimension_values (Object [Str "A"; Num 2%Q]) = Raise TypeError.
Proof. reflexivity. Qed.

(** ** The callback on the table the script serves *)

Lemma clean_has_required_columns (str_to_float : string -> option Q)
  (df : DataFrame) :
  has_required_columns df -> has_required_columns (clean str_to_float df).
Proof.
  intros H col Hin. unfold clean, apply_mapping.
  rewrite apply_mapping_has_column. now apply H.
Qed.

(** X18: once the script has mapped a table with every required column, no
    invocation of the callback raises, whatever the trigger and the
    selections. *)
Lemma callback_defined_after_cleaning (str_to_float : string -> option Q)
  (argsort : list Q -> list nat)
  (df_orig : DataFrame) (triggered_id : option string)
  (selected_facilities selected_sexes : list scalar) (reset_clicks : nat) :
  has_required_columns df_orig ->
  exists o,
    update_dashboard str_to_float argsort (clean str_to_float df_orig) triggered_id
                     selected_facilities selected_sexes reset_clicks = Ok o.
Proof.
  intros Hreq0.
  pose proof (clean_has_required_columns str_to_float df_orig Hreq0) as Hreq.
  set (df := clean str_to_float df_orig) in *.
  destruct (filter_cols_required df Hreq) as [Hf Hs].
  destruct (select_rows_defined df triggered_id selected_facilities
              selected_sexes Hf Hs) as (fs & ss & fdf & Hsel).
  destruct (empty fdf) eqn:Hempty.
  - eexists. eapply update_dashboard_empty; eassumption.
  - destruct (select_rows_subtable _ _ _ _ _ _ _ Hsel) as (Hschema & _).
    assert (Hin : In "overall_satisfaction_rating" all_satisfaction_cols).
    { apply in_or_app. left. cbn. tauto. }
    assert (Hov : exists v, getitem fdf "overall_satisfaction_rating"
                            = Ok (Numeric v)).
    { assert (N : numeric_at df "overall_satisfaction_rating").
      { unfold df, clean, apply_mapping. apply apply_mapping_numeric. now left. }
      assert (Hc : has_column df "overall_satisfaction_rating" = true).
      { apply Hreq. apply in_or_app. left. exact Hin. }
      unfold has_column in Hc. specialize (Hschema "overall_satisfaction_rating").
      unfold getitem.
      destruct (lookup "overall_satisfaction_rating" (columns df)) as [s|] eqn:E;
        [|discriminate].
      destruct (N s E) as [w ->]. cbn in Hschema.
      destruct (lookup "overall_satisfaction_rating" (columns fdf)) as [[v|v]|];
        cbn in Hschema; try discriminate. eauto. }
    destruct Hov as [v Hov].
    destruct (update_dashboard_defined str_to_float argsort df triggered_id
                selected_facilities selected_sexes reset_clicks fs ss fdf
                (Numeric v) (nanmean v) Hreq Hsel Hempty Hov eq_refl)
      as (care & facility & _ & _ & ->).
    eauto.
Qed.

(** Selecting facility B keeps the one respondent who rated 2: the subset's
    own maximum is 2, the card still reads "out of 3". *)
Example global_denominator_example :
  (f <- filtered_subset clean_survey (Some "facility-dropdown")
                        [SStr "B"] all_selected ;;
   getitem f "overall_satisfaction_rating") = Ok (Numeric [Some 2%Q])
  /\ (o <- update_dashboard no_number insertion_argsort clean_survey (Some "facility-dropdown")
                            [SStr "B"] all_selected 0 ;;
      Ok (summary_card o)) = Ok (Card 1 (Some 2%Q) (Score (Some 3%Q))).
Proof. split; reflexivity. Qed.

(** * Further properties of the script *)

(** ** The mapping loop *)

Lemma all_satisfaction_cols_NoDup : NoDup all_satisfaction_cols.
Proof.
  assert (E : nodup string_dec all_satisfaction_cols = all_satisfaction_cols)
    by reflexivity.
  rewrite <- E. apply NoDup_nodup.
Qed.

Lemma assign_names (name : string) (s : Series) (cols : list (string * Series)) :
  lookup name cols <> None ->
  map fst (assign name s cols) = map fst cols.
Proof.
  induction cols as [|[n s0] cols IH]; cbn; [congruence|].
  destruct (String.eqb n name); cbn; [reflexivity|].
  intros H. now rewrite IH.
Qed.

Lemma assign_twice (name : string) (s s' : Series) (cols : list (string * Series)) :
  assign name s' (assign name s cols) = assign name s' cols.
Proof.
  induction cols as [|[n s0] cols IH]; cbn.
  - now rewrite String.eqb_refl.
  - destruct (String.eqb n name) eqn:E; cbn; rewrite E; [reflexivity|].
    now rewrite IH.
Qed.

Lemma to_numeric_replace (str_to_float : string -> option Q) (v : list cell) :
  to_numeric str_to_float (replace satisfaction_mapping (Object v))
  = Numeric (map (score str_to_float) v).
Proof.
  cbn [replace to_numeric]. rewrite map_map. f_equal.
  apply map_ext. intros [q|x|]; cbn [coerce score]; try reflexivity.
  now destruct (dict_get x satisfaction_mapping).
Qed.

Section MappingLoop.
Variable str_to_float : string -> option Q.

(** One step of the loop, as a function of the table alone. *)
Lemma map_column_step (df : DataFrame) (out : list output) (col : string) :
  fst (map_column str_to_float (df, out) col)
  = match lookup col (columns df) with
    | Some (Object v) =>
        setitem df col (Numeric (map (score str_to_float) v))
    | _ => df
    end.
Proof.
  rewrite map_column_table.
  destruct (lookup col (columns df)) as [[v|v]|]; try reflexivity.
  rewrite to_numeric_replace. unfold setitem. cbn [index columns].
  now rewrite assign_twice.
Qed.

Lemma map_column_other (df : DataFrame) (out : list output) (col c : string) :
  col <> c ->
  lookup c (columns (fst (map_column str_to_float (df, out) col)))
  = lookup c (columns df).
Proof.
  intros H. rewrite map_column_step.
  destruct (lookup col (columns df)) as [[v|v]|]; try reflexivity.
  rewrite lookup_setitem. apply String.eqb_neq in H. now rewrite H.
Qed.

Lemma fold_map_column_other (cols : list string) (st : DataFrame * list output)
  (c : string) :
  ~ In c cols ->
  lookup c (columns (fst (fold_left (map_column str_to_float) cols st)))
  = lookup c (columns (fst st)).
Proof.
  revert st.
  induction cols as [|col cols IH]; intros [df out] H; cbn [fold_left].
  - reflexivity.
  - rewrite IH by (intros Hin; apply H; now right).
    apply map_column_other. intros ->. apply H. now left.
Qed.

Lemma fold_map_column_numeric (cols : list string) (st : DataFrame * list output)
  (c : string) (v : list (option Q)) :
  lookup c (columns (fst st)) = Some (Numeric v) ->
  lookup c (columns (fst (fold_left (map_column str_to_float) cols st)))
  = Some (Numeric v).
Proof.
  revert st.
  induction cols as [|col cols IH]; intros [df out] H; cbn [fold_left].
  - exact H.
  - apply IH. cbn [fst] in H.
    destruct (String.eqb_spec col c) as [->|Hne].
    + rewrite map_column_step, H. exact H.
    + now rewrite map_column_other.
Qed.

Lemma fold_map_column_object (cols : list string) (st : DataFrame * list output)
  (c : string) (v : list cell) :
  NoDup cols -> In c cols ->
  lookup c (columns (fst st)) = Some (Object v) ->
  lookup c (columns (fst (fold_left (map_column str_to_float) cols st)))
  = Some (Numeric (map (score str_to_float) v)).
Proof.
  revert st.
  induction cols as [|col cols IH]; intros [df out] Hnd Hin H; [destruct Hin|].
  cbn [fold_left]. inversion Hnd as [|? ? Hnotin Hnd']. subst.
  cbn [fst] in H. destruct Hin as [->|Hin].
  - rewrite fold_map_column_other by exact Hnotin.
    rewrite map_column_step, H, lookup_setitem. now rewrite String.eqb_refl.
  - apply IH; [exact Hnd' | exact Hin|].
    rewrite map_column_other; [exact H|]. intros ->. contradiction.
Qed.

Lemma fold_map_column_shape (cols : list string) (st : DataFrame * list output) :
  index (fst (fold_left (map_column str_to_float) cols st)) = index (fst st)
  /\ column_names (fst (fold_left (map_column str_to_float) cols st))
     = column_names (fst st).
Proof.
  revert st.
  induction cols as [|col cols IH]; intros [df out]; cbn [fold_left].
  - split; reflexivity.
  - destruct (IH (map_column str_to_float (df, out) col)) as [Hi Hc].
    rewrite Hi, Hc. rewrite map_column_step. cbn [fst].
    destruct (lookup col (columns df)) as [[v|v]|] eqn:E;
      try (split; reflexivity).
    split; [reflexivity|].
    unfold column_names, setitem. cbn [columns].
    apply assign_names. congruence.
Qed.

Lemma fold_map_column_fixpoint (cols : list string) (df : DataFrame)
  (out : list output) :
  (forall c, In c cols -> numeric_at df c) ->
  fst (fold_left (map_column str_to_float) cols (df, out)) = df.
Proof.
  revert out.
  induction cols as [|col cols IH]; intros out H; cbn [fold_left];
    [reflexivity|].
  assert (E : fst (map_column str_to_float (df, out) col) = df).
  { rewrite map_column_step.
    destruct (lookup col (columns df)) as [[v|v]|] eqn:L; try reflexivity.
    destruct (H col (or_introl eq_refl) _ L) as [w Hw]. discriminate Hw. }
  destruct (map_column str_to_float (df, out) col) as [df' out'].
  cbn [fst] in E. subst df'. apply IH. intros c Hc. apply H. now right.
Qed.

End MappingLoop.

(** X1: the mapping loop neither adds, drops nor reorders rows or columns:
    the cleaned table has the index and the column names of the input. *)
Theorem clean_keeps_shape (str_to_float : string -> option Q) (df : DataFrame) :
  index (clean str_to_float df) = index df
  /\ column_names (clean str_to_float df) = column_names df.
Proof.
  unfold clean, apply_mapping.
  apply (fold_map_column_shape str_to_float all_satisfaction_cols (df, [])).
Qed.

(** X2: the mapping loop changes nothing but non-numeric satisfaction
    columns: a column that is not a satisfaction column, and a column that is
    already numeric, come out as they went in. *)
Theorem clean_leaves_other_columns (str_to_float : string -> option Q)
  (df : DataFrame) (c : string) :
  ~ In c all_satisfaction_cols
  \/ (exists v, lookup c (columns df) = Some (Numeric v)) ->
  lookup c (columns (clean str_to_float df)) = lookup c (columns df).
Proof.
  unfold clean, apply_mapping. intros [H|[v H]].
  - now rewrite fold_map_column_other.
  - rewrite H. now apply fold_map_column_numeric.
Qed.

Lemma clean_leaves_other_columns_witness :
  lookup "health_facility" (columns (clean no_number raw_survey))
  = lookup "health_facility" (columns raw_survey)
  /\ lookup "overall_satisfaction_rating" (columns (clean no_number raw_survey))
     = lookup "overall_satisfaction_rating" (columns raw_survey).
Proof.
  split.
  - apply (clean_leaves_other_columns no_number raw_survey "health_facility").
    left. unfold all_satisfaction_cols, care_satisfaction_cols,
      facility_satisfaction_cols. simpl.
    intros H. repeat (destruct H as [H|H]; [discriminate H|]). exact H.
  - apply (clean_leaves_other_columns no_number raw_survey
             "overall_satisfaction_rating").
    right. eexists. reflexivity.
Defined.

(** X3: a satisfaction column that holds objects is replaced, cell by cell,
    by the scores: a number is kept, a label of the mapping takes its score
    (whatever the text conversion would make of it), other text is
    converted, and a missing cell stays missing. *)
Theorem clean_scores_cells (str_to_float : string -> option Q)
  (df : DataFrame) (col : string) (v : list cell) :
  In col all_satisfaction_cols ->
  lookup col (columns df) = Some (Object v) ->
  lookup col (columns (clean str_to_float df))
  = Some (Numeric (map (score str_to_float) v)).
Proof.
  intros Hin H. unfold clean, apply_mapping.
  now apply fold_map_column_object;
    [apply all_satisfaction_cols_NoDup | |].
Qed.

Lemma clean_scores_cells_witness :
  lookup "Staff attitude" (columns (clean no_number raw_survey))
  = Some (Numeric (map (score no_number)
                       [Str "Satisfied"; Str "Good"; Str "unknown"])).
Proof.
  apply (clean_scores_cells no_number raw_survey "Staff attitude").
  - unfold all_satisfaction_cols, care_satisfaction_cols. simpl. tauto.
  - reflexivity.
Defined.

(** X4: mapping is idempotent: running the loop on an already mapped table
    changes nothing. *)
Theorem clean_idempotent (str_to_float : string -> option Q) (df : DataFrame) :
  clean str_to_float (clean str_to_float df) = clean str_to_float df.
Proof.
  unfold clean at 1. unfold apply_mapping.
  apply fold_map_column_fixpoint. intros c Hc.
  unfold clean, apply_mapping. apply apply_mapping_numeric. now left.
Qed.

(** ** Well-formed tables *)

Lemma well_formed_assign (n : nat) (name : string) (s : Series)
  (cols : list (string * Series)) :
  series_len s = n ->
  forallb (fun c => (series_len (snd c) =? n)%nat) cols = true ->
  forallb (fun c => (series_len (snd c) =? n)%nat) (assign name s cols) = true.
Proof.
  intros Hs. induction cols as [|[k s0] cols IH]; cbn.
  - intros _. rewrite andb_true_r. now apply Nat.eqb_eq.
  - rewrite andb_true_iff. intros [H0 Hrest].
    destruct (String.eqb k name); cbn; rewrite andb_true_iff.
    + split; [now apply Nat.eqb_eq | exact Hrest].
    + split; [exact H0 | now apply IH].
Qed.

Lemma well_formed_map_column (str_to_float : string -> option Q)
  (df : DataFrame) (out : list output) (col : string) :
  well_formed df = true ->
  well_formed (fst (map_column str_to_float (df, out) col)) = true.
Proof.
  intros Hwf. rewrite map_column_step.
  destruct (lookup col (columns df)) as [[v|v]|] eqn:E; try exact Hwf.
  unfold well_formed, setitem, len. cbn [index columns].
  apply well_formed_assign; [|exact Hwf].
  cbn. rewrite length_map.
  exact (well_formed_lookup df col (Object v) Hwf E).
Qed.

(** X5: the mapping loop keeps the table well formed: every column of the
    cleaned table is as long as its index. *)
Theorem clean_well_formed (str_to_float : string -> option Q) (df : DataFrame) :
  well_formed df = true -> well_formed (clean str_to_float df) = true.
Proof.
  unfold clean, apply_mapping. generalize (@nil output).
  generalize all_satisfaction_cols. intros cols. revert df.
  induction cols as [|col cols IH]; intros df out Hwf; cbn [fold_left].
  - exact Hwf.
  - pose proof (well_formed_map_column str_to_float df out col Hwf) as H.
    destruct (map_column str_to_float (df, out) col) as [df' out'].
    now apply IH.
Qed.

Lemma clean_well_formed_witness :
  well_formed (clean no_number raw_survey) = true.
Proof. apply (clean_well_formed no_number raw_survey). reflexivity. Defined.

Lemma boolean_mask_count {A : Type} (mask : list bool) (l : list A) :
  List.length l = List.length mask ->
  List.length (boolean_mask mask l) = List.length (filter (fun b => b) mask).
Proof.
  revert l.
  induction mask as [|b mask IH]; intros [|x l] H; cbn in *;
    try reflexivity; try discriminate.
  destruct b; cbn; rewrite IH by lia; reflexivity.
Qed.

Lemma isin_length (s : Series) (values : list scalar) :
  List.length (isin s values) = series_len s.
Proof. destruct s; cbn; apply length_map. Qed.

Lemma well_formed_mask_rows (mask : list bool) (df : DataFrame) :
  well_formed df = true ->
  List.length mask = len df ->
  well_formed (mask_rows mask df) = true.
Proof.
  intros Hwf Hlen. unfold well_formed, mask_rows, len in *. cbn [index columns].
  rewrite (boolean_mask_count mask (index df)) by now symmetry.
  induction (columns df) as [|[n s] cols IH]; cbn in *; [reflexivity|].
  apply andb_true_iff in Hwf. destruct Hwf as [Hs Hrest].
  apply andb_true_iff. split; [|now apply IH].
  apply Nat.eqb_eq in Hs. apply Nat.eqb_eq.
  destruct s as [v|v]; cbn in *; apply boolean_mask_count; lia.
Qed.

Lemma well_formed_getitem (df : DataFrame) (col : string) (s : Series) :
  well_formed df = true -> getitem df col = Ok s -> series_len s = len df.
Proof.
  intros Hwf H. unfold getitem in H.
  destruct (lookup col (columns df)) as [s'|] eqn:E; [|discriminate].
  injection H as ->. now apply well_formed_lookup with col.
Qed.

Lemma filter_facility_well_formed (sel : list scalar) (df f : DataFrame) :
  well_formed df = true -> filter_facility sel df = Ok f -> well_formed f = true.
Proof.
  intros Hwf. unfold filter_facility.
  destruct (truthy sel && negb (contains sel (SStr "all")));
    [|now intros [= <-]].
  destruct (getitem df "health_facility") as [s|] eqn:E; cbn; [|discriminate].
  intros [= <-]. apply well_formed_mask_rows; [exact Hwf|].
  rewrite isin_length. now apply well_formed_getitem with "health_facility".
Qed.

Lemma filter_sex_well_formed (sel : list scalar) (df f : DataFrame) :
  well_formed df = true -> filter_sex sel df = Ok f -> well_formed f = true.
Proof.
  intros Hwf. unfold filter_sex.
  destruct (truthy sel && negb (contains sel (SStr "all")));
    [|now intros [= <-]].
  destruct (getitem df "respondent_sex") as [s|] eqn:E; cbn; [|discriminate].
  intros [= <-]. apply well_formed_mask_rows; [exact Hwf|].
  rewrite isin_length. now apply well_formed_getitem with "respondent_sex".
Qed.

(** X6: filtering keeps the table well formed: whatever the trigger and the
    selections, every column of the filtered subset is as long as its
    index. *)
Theorem filtered_subset_well_formed (df : DataFrame)
  (triggered_id : option string)
  (selected_facilities selected_sexes : list scalar) (filtered_df : DataFrame) :
  well_formed df = true ->
  filtered_subset df triggered_id selected_facilities selected_sexes
  = Ok filtered_df ->
  well_formed filtered_df = true.
Proof.
  intros Hwf H.
  destruct (filtered_subset_select_rows _ _ _ _ _ H) as (fs & ss & Hsel).
  unfold select_rows in Hsel. destruct (is_reset triggered_id).
  - now injection Hsel as _ _ <-.
  - destruct (filter_facility selected_facilities df) as [f1|] eqn:E1;
      cbn in Hsel; [|discriminate].
    destruct (filter_sex selected_sexes f1) as [f2|] eqn:E2;
      cbn in Hsel; [|discriminate].
    injection Hsel as _ _ <-.
    apply (filter_sex_well_formed _ _ _ (filter_facility_well_formed _ _ _ Hwf E1) E2).
Qed.

Lemma filtered_subset_well_formed_witness :
  well_formed (mask_rows [false; true; true] clean_survey) = true.
Proof.
  apply (filtered_subset_well_formed clean_survey (Some "sex-dropdown")
           all_selected [SStr "F"]); reflexivity.
Defined.

(** ** The filtered subset *)

Lemma boolean_mask_both {A : Type} (m1 m2 : list bool) (l : list A) :
  boolean_mask (boolean_mask m1 m2) (boolean_mask m1 l)
  = boolean_mask (both m1 m2) l.
Proof.
  revert m2 l.
  induction m1 as [|b1 m1 IH]; intros m2 l.
  - reflexivity.
  - destruct m2 as [|b2 m2].
    + now rewrite (boolean_mask_nil_r (b1 :: m1)).
    + destruct l as [|x l].
      * now rewrite !boolean_mask_nil_r.
      * unfold both in *. destruct b1, b2; simpl; now rewrite IH.
Qed.

Lemma mask_rows_both (m1 m2 : list bool) (df : DataFrame) :
  mask_rows (boolean_mask m1 m2) (mask_rows m1 df) = mask_rows (both m1 m2) df.
Proof.
  unfold mask_rows; cbn. f_equal.
  - apply boolean_mask_both.
  - rewrite map_map. apply map_ext. intros [n s]; cbn. f_equal.
    destruct s; cbn; now rewrite boolean_mask_both.
Qed.

Lemma both_true_r (m : list bool) (n : list bool) :
  Forall (fun b => b = true) n -> List.length n = List.length m -> both m n = m.
Proof.
  intros H. revert m.
  induction H as [|b n Hb _ IH]; intros [|x m] Hl; cbn in *;
    try reflexivity; try discriminate.
  subst b. unfold both in *. cbn. rewrite andb_true_r. f_equal. apply IH. lia.
Qed.

Lemma both_true_l (m : list bool) (n : list bool) :
  Forall (fun b => b = true) n -> List.length n = List.length m -> both n m = m.
Proof.
  intros H. revert m.
  induction H as [|b n Hb _ IH]; intros [|x m] Hl; cbn in *;
    try reflexivity; try discriminate.
  subst b. unfold both in *. cbn. f_equal. apply IH. lia.
Qed.

Lemma all_true_map {A : Type} (l : list A) :
  Forall (fun b => b = true) (map (fun _ => true) l).
Proof. induction l; cbn; constructor; auto. Qed.

Lemma both_all_true (m n : list bool) :
  Forall (fun b => b = true) m -> Forall (fun b => b = true) n ->
  Forall (fun b => b = true) (both m n).
Proof.
  intros Hm. revert n.
  induction Hm as [|b m Hb _ IH]; intros n Hn; [constructor|].
  destruct Hn as [|c n Hc Hn]; [constructor|].
  unfold both in *. cbn. constructor; [now subst | now apply IH].
Qed.

Lemma both_length (m n : list bool) :
  List.length m = List.length n -> List.length (both m n) = List.length m.
Proof.
  intros H. unfold both. rewrite length_map, length_combine. lia.
Qed.

(** X7: outside a reset, the filtered subset of a well-formed table is the
    table restricted, in one step, to the rows that pass the facility
    selection and pass the sex selection; a selection that is empty or holds
    "all" lets every row pass. *)
Theorem filtered_subset_closed_form (df : DataFrame)
  (triggered_id : option string)
  (selected_facilities selected_sexes : list scalar)
  (facility sex : Series) :
  well_formed df = true ->
  is_reset triggered_id = false ->
  getitem df "health_facility" = Ok facility ->
  getitem df "respondent_sex" = Ok sex ->
  filtered_subset df triggered_id selected_facilities selected_sexes
  = Ok (mask_rows (both (passes selected_facilities facility)
                        (passes selected_sexes sex)) df).
Proof.
  intros Hwf Hreset Hf Hs.
  pose proof (well_formed_getitem _ _ _ Hwf Hf) as Lf.
  pose proof (well_formed_getitem _ _ _ Hwf Hs) as Ls.
  unfold filtered_subset, select_rows, filter_facility, filter_sex, passes.
  rewrite Hreset.
  destruct (truthy selected_facilities
            && negb (contains selected_facilities (SStr "all")));
    destruct (truthy selected_sexes
              && negb (contains selected_sexes (SStr "all")));
    cbn [bind]; rewrite ?Hf; cbn [bind];
    rewrite ?getitem_mask_rows, ?Hs; cbn [bind snd]; f_equal.
  - rewrite isin_mask_series. apply mask_rows_both.
  - rewrite both_true_r; [reflexivity | apply all_true_map|].
    now rewrite length_map, !isin_length, Lf, Ls.
  - rewrite both_true_l; [reflexivity | apply all_true_map|].
    now rewrite length_map, !isin_length, Lf, Ls.
  - symmetry. apply mask_rows_all_true; [exact Hwf | |].
    + apply both_all_true; apply all_true_map.
    + rewrite both_length; rewrite !length_map, !isin_length; congruence.
Qed.

Lemma filtered_subset_closed_form_witness :
  filtered_subset clean_survey (Some "facility-dropdown")
                  [SStr "A"; SStr "B"] [SStr "F"]
  = Ok (mask_rows [false; true; false] clean_survey).
Proof.
  apply (filtered_subset_closed_form clean_survey (Some "facility-dropdown")
           [SStr "A"; SStr "B"] [SStr "F"]
           (Object [Str "A"; Str "B"; NaN])
           (Object [Str "M"; Str "F"; Str "F"])); reflexivity.
Defined.

Lemma boolean_mask_self (m : list bool) :
  Forall (fun b => b = true) (boolean_mask m m).
Proof.
  induction m as [|[] m IH]; cbn; [constructor | constructor; auto | exact IH].
Qed.

Lemma Forall_boolean_mask {A : Type} (P : A -> Prop) (m : list bool) (l : list A) :
  Forall P l -> Forall P (boolean_mask m l).
Proof.
  intros H. revert m.
  induction H as [|x l Hx _ IH]; intros [|b m]; cbn; try constructor.
  destruct b; [constructor; auto | apply IH].
Qed.

(** After a filter on column [col] by [sel], the rows kept all have their
    [col] among [sel]; a further row selection does not undo that. *)
Lemma mask_rows_selected (df : DataFrame) (col : string) (s0 s : Series)
  (sel : list scalar) :
  getitem df col = Ok s0 ->
  getitem (mask_rows (isin s0 sel) df) col = Ok s ->
  Forall (fun b => b = true) (isin s sel).
Proof.
  intros H0. rewrite getitem_mask_rows, H0. cbn [bind]. intros [= <-].
  rewrite isin_mask_series. apply boolean_mask_self.
Qed.

Lemma mask_rows_keeps_selected (mask : list bool) (df : DataFrame) (col : string)
  (s : Series) (sel : list scalar) :
  (forall s0, getitem df col = Ok s0 -> Forall (fun b => b = true) (isin s0 sel)) ->
  getitem (mask_rows mask df) col = Ok s ->
  Forall (fun b => b = true) (isin s sel).
Proof.
  intros H. rewrite getitem_mask_rows.
  destruct (getitem df col) as [s0|]; cbn [bind]; [|discriminate].
  intros [= <-]. rewrite isin_mask_series.
  apply Forall_boolean_mask. now apply H.
Qed.

Lemma rows_selected (df : DataFrame) (triggered_id : option string)
  (selected_facilities selected_sexes : list scalar) (filtered_df : DataFrame) :
  is_reset triggered_id = false ->
  filtered_subset df triggered_id selected_facilities selected_sexes
  = Ok filtered_df ->
  (in_force selected_facilities = true ->
   forall s, getitem filtered_df "health_facility" = Ok s ->
             Forall (fun b => b = true) (isin s selected_facilities))
  /\
  (in_force selected_sexes = true ->
   forall s, getitem filtered_df "respondent_sex" = Ok s ->
             Forall (fun b => b = true) (isin s selected_sexes)).
Proof.
  intros Hreset H.
  destruct (filtered_subset_select_rows _ _ _ _ _ H) as (fs & ss & Hsel).
  unfold select_rows in Hsel. rewrite Hreset in Hsel.
  destruct (filter_facility selected_facilities df) as [f1|] eqn:E1;
    cbn [bind] in Hsel; [|discriminate].
  destruct (filter_sex selected_sexes f1) as [f2|] eqn:E2;
    cbn [bind] in Hsel; [|discriminate].
  injection Hsel as _ _ <-.
  unfold in_force, filter_facility, filter_sex in *.
  split; intros Hforce s Hs.
  - rewrite Hforce in E1.
    destruct (getitem df "health_facility") as [s0|] eqn:E0;
      cbn [bind] in E1; [|discriminate].
    injection E1 as <-.
    assert (K : forall s1, getitem (mask_rows (isin s0 selected_facilities) df)
                                   "health_facility" = Ok s1 ->
                           Forall (fun b => b = true) (isin s1 selected_facilities)).
    { intros s1. now apply mask_rows_selected. }
    destruct (truthy selected_sexes && negb (contains selected_sexes (SStr "all"))).
    + destruct (getitem _ "respondent_sex") as [r|]; cbn [bind] in E2;
        [|discriminate].
      injection E2 as <-. now apply (mask_rows_keeps_selected _ _ _ _ _ K Hs).
    + injection E2 as <-. now apply K.
  - rewrite Hforce in E2.
    destruct (getitem f1 "respondent_sex") as [r|] eqn:Er;
      cbn [bind] in E2; [|discriminate].
    injection E2 as <-.
    now apply (mask_rows_selected f1 "respondent_sex" r).
Qed.

(** X8: outside a reset, every respondent of the filtered subset was
    selected: when the facility filter is in force each remaining row has its
    facility among the selected facilities, and likewise for sex. *)
Theorem filtered_rows_are_selected (df : DataFrame) (triggered_id : option string)
  (selected_facilities selected_sexes : list scalar) (filtered_df : DataFrame) :
  is_reset triggered_id = false ->
  filtered_subset df triggered_id selected_facilities selected_sexes
  = Ok filtered_df ->
  (in_force selected_facilities = true ->
   forall s, getitem filtered_df "health_facility" = Ok s ->
             Forall (fun b => b = true) (isin s selected_facilities))
  /\
  (in_force selected_sexes = true ->
   forall s, getitem filtered_df "respondent_sex" = Ok s ->
             Forall (fun b => b = true) (isin s selected_sexes)).
Proof. exact (rows_selected df triggered_id selected_facilities selected_sexes filtered_df). Qed.

Lemma filtered_rows_are_selected_witness :
  Forall (fun b => b = true) (isin (Object [Str "B"]) [SStr "B"; SStr "C"]).
Proof.
  apply (filtered_rows_are_selected clean_survey (Some "facility-dropdown")
           [SStr "B"; SStr "C"] [SStr "F"]
           (mask_rows [false; true; false] clean_survey));
    reflexivity.
Defined.

Lemma filter_facility_noop (sel : list scalar) (f : DataFrame) :
  well_formed f = true ->
  (in_force sel = true ->
   exists s, getitem f "health_facility" = Ok s
             /\ Forall (fun b => b = true) (isin s sel)) ->
  filter_facility sel f = Ok f.
Proof.
  intros Hwf H. unfold filter_facility. unfold in_force in H.
  destruct (truthy sel && negb (contains sel (SStr "all"))); [|reflexivity].
  destruct (H eq_refl) as (s & Hs & Hall). rewrite Hs. cbn [bind]. f_equal.
  apply mask_rows_all_true; [exact Hwf | exact Hall|].
  rewrite isin_length. now apply well_formed_getitem with "health_facility".
Qed.

Lemma filter_sex_noop (sel : list scalar) (f : DataFrame) :
  well_formed f = true ->
  (in_force sel = true ->
   exists s, getitem f "respondent_sex" = Ok s
             /\ Forall (fun b => b = true) (isin s sel)) ->
  filter_sex sel f = Ok f.
Proof.
  intros Hwf H. unfold filter_sex. unfold in_force in H.
  destruct (truthy sel && negb (contains sel (SStr "all"))); [|reflexivity].
  destruct (H eq_refl) as (s & Hs & Hall). rewrite Hs. cbn [bind]. f_equal.
  apply mask_rows_all_true; [exact Hwf | exact Hall|].
  rewrite isin_length. now apply well_formed_getitem with "respondent_sex".
Qed.

Lemma filter_facility_needs_column (sel : list scalar) (df f : DataFrame) :
  in_force sel = true -> filter_facility sel df = Ok f ->
  has_column df "health_facility" = true.
Proof.
  unfold in_force, filter_facility, getitem, has_column. intros ->.
  now destruct (lookup "health_facility" (columns df)).
Qed.

Lemma filter_sex_needs_column (sel : list scalar) (df f : DataFrame) :
  in_force sel = true -> filter_sex sel df = Ok f ->
  has_column df "respondent_sex" = true.
Proof.
  unfold in_force, filter_sex, getitem, has_column. intros ->.
  now destruct (lookup "respondent_sex" (columns df)).
Qed.

(** X9: filtering is idempotent: applying the same trigger and selections
    to the filtered subset of a well-formed table returns that subset
    unchanged. *)
Theorem filtering_idempotent (df : DataFrame) (triggered_id : option string)
  (selected_facilities selected_sexes : list scalar) (filtered_df : DataFrame) :
  well_formed df = true ->
  filtered_subset df triggered_id selected_facilities selected_sexes
  = Ok filtered_df ->
  filtered_subset filtered_df triggered_id selected_facilities selected_sexes
  = Ok filtered_df.
Proof.
  intros Hwf H.
  destruct (is_reset triggered_id) eqn:Hreset.
  - unfold filtered_subset, select_rows in *. rewrite Hreset in *.
    cbn in H. injection H as <-. reflexivity.
  - pose proof (rows_selected _ _ _ _ _ Hreset H) as [Rf Rs].
    assert (Hwf2 : well_formed filtered_df = true).
    { destruct (filtered_subset_select_rows _ _ _ _ _ H) as (fs & ss & Hsel).
      unfold select_rows in Hsel. rewrite Hreset in Hsel.
      destruct (filter_facility selected_facilities df) as [f1|] eqn:E1;
        cbn [bind] in Hsel; [|discriminate].
      destruct (filter_sex selected_sexes f1) as [f2|] eqn:E2;
        cbn [bind] in Hsel; [|discriminate].
      injection Hsel as _ _ <-.
      apply (filter_sex_well_formed _ _ _
               (filter_facility_well_formed _ _ _ Hwf E1) E2). }
    destruct (filtered_subset_select_rows _ _ _ _ _ H) as (fs & ss & Hsel).
    unfold select_rows in Hsel. rewrite Hreset in Hsel.
    destruct (filter_facility selected_facilities df) as [f1|] eqn:E1;
      cbn [bind] in Hsel; [|discriminate].
    destruct (filter_sex selected_sexes f1) as [f2|] eqn:E2;
      cbn [bind] in Hsel; [|discriminate].
    injection Hsel as _ _ <-.
    destruct (filter_facility_subtable _ _ _ E1) as [S1 _].
    destruct (filter_sex_subtable _ _ _ E2) as [S2 _].
    unfold filtered_subset, select_rows. rewrite Hreset.
    rewrite (filter_facility_noop selected_facilities f2 Hwf2).
    + cbn [bind]. rewrite (filter_sex_noop selected_sexes f2 Hwf2); [reflexivity|].
      intros Hforce.
      pose proof (filter_sex_needs_column _ _ _ Hforce E2) as Hc.
      rewrite <- (lookup_same_schema_has_column _ _ _ S2) in Hc.
      destruct (has_column_getitem _ _ Hc) as [s Hs]. eauto.
    + intros Hforce.
      pose proof (filter_facility_needs_column _ _ _ Hforce E1) as Hc.
      rewrite <- (lookup_same_schema_has_column _ _ _ S1) in Hc.
      rewrite <- (lookup_same_schema_has_column _ _ _ S2) in Hc.
      destruct (has_column_getitem _ _ Hc) as [s Hs]. eauto.
Qed.

Lemma filtering_idempotent_witness :
  filtered_subset (mask_rows [false; true; false] clean_survey)
                  (Some "facility-dropdown") [SStr "A"; SStr "B"] [SStr "F"]
  = Ok (mask_rows [false; true; false] clean_survey).
Proof.
  apply (filtering_idempotent clean_survey); reflexivity.
Defined.

(** ** What the callback returns *)

Lemma select_rows_selections (df : DataFrame) (triggered_id : option string)
  (fac sex fs ss : list scalar) (fdf : DataFrame) :
  select_rows df triggered_id fac sex = Ok (fs, ss, fdf) ->
  fs = (if is_reset triggered_id then all_selected else fac)
  /\ ss = (if is_reset triggered_id then all_selected else sex).
Proof.
  unfold select_rows. destruct (is_reset triggered_id).
  - intros [= <- <- _]. split; reflexivity.
  - destruct (filter_facility fac df) as [f1|]; cbn [bind]; [|discriminate].
    destruct (filter_sex sex f1) as [f2|]; cbn [bind]; [|discriminate].
    intros [= <- <- _]. split; reflexivity.
Qed.

(** X10: the callback never alters the selections on its own: the two
    dropdown values it returns are the selections it was called with, except
    on a reset, where both are the "all" sentinel; this holds on the "no
    data" path as well. *)
Theorem selections_echoed (str_to_float : string -> option Q)
  (argsort : list Q -> list nat) (df : DataFrame)
  (triggered_id : option string)
  (selected_facilities selected_sexes : list scalar) (reset_clicks : nat)
  (o : outputs) :
  update_dashboard str_to_float argsort df triggered_id
                   selected_facilities selected_sexes reset_clicks = Ok o ->
  facility_dropdown o
  = (if is_reset triggered_id then all_selected else selected_facilities)
  /\ sex_dropdown o
     = (if is_reset triggered_id then all_selected else selected_sexes).
Proof.
  intros Hrun.
  destruct (update_dashboard_selects _ _ _ _ _ _ _ _ Hrun) as (fs & ss & fdf & Hsel).
  destruct (select_rows_selections _ _ _ _ _ _ _ Hsel) as [<- <-].
  destruct (empty fdf) eqn:Hempty.
  - rewrite (update_dashboard_empty _ _ _ _ _ _ _ _ _ _ Hsel Hempty) in Hrun.
    injection Hrun as <-. split; reflexivity.
  - destruct (update_dashboard_inv _ _ _ _ _ _ _ _ _ _ _ Hsel Hempty Hrun)
      as (overall & avg & care & facility & _ & _ & _ & _ & ->).
    split; reflexivity.
Qed.

Lemma selections_echoed_witness :
  [SStr "Z"] = (if is_reset (Some "facility-dropdown")
                then all_selected else [SStr "Z"])
  /\ [SStr "F"] = (if is_reset (Some "facility-dropdown")
                   then all_selected else [SStr "F"]).
Proof.
  apply (selections_echoed no_number insertion_argsort clean_survey (Some "facility-dropdown")
           [SStr "Z"] [SStr "F"] 0
           (mkOutputs (Message "No data matches the selected filters.")
                      (Placeholder "No data to display")
                      (Placeholder "No data to display")
                      [SStr "Z"] [SStr "F"])).
  reflexivity.
Defined.

(** X11: the respondent count on the summary card is the number of rows of
    the filtered subset; it is never zero (an empty subset gets the "no
    data" message instead) and never more than the rows of the table. *)
Theorem respondents_counted (str_to_float : string -> option Q)
  (argsort : list Q -> list nat) (df : DataFrame)
  (triggered_id : option string)
  (selected_facilities selected_sexes : list scalar) (reset_clicks : nat)
  (o : outputs) (n : nat) (avg : option Q) (d : denominator) :
  update_dashboard str_to_float argsort df triggered_id
                   selected_facilities selected_sexes reset_clicks = Ok o ->
  summary_card o = Card n avg d ->
  exists filtered_df,
    filtered_subset df triggered_id selected_facilities selected_sexes
    = Ok filtered_df
    /\ n = len filtered_df
    /\ (0 < n <= len df)%nat.
Proof.
  intros Hrun Hcard.
  destruct (update_dashboard_selects _ _ _ _ _ _ _ _ Hrun) as (fs & ss & fdf & Hsel).
  exists fdf. split; [unfold filtered_subset; now rewrite Hsel|].
  destruct (empty fdf) eqn:Hempty.
  - rewrite (update_dashboard_empty _ _ _ _ _ _ _ _ _ _ Hsel Hempty) in Hrun.
    injection Hrun as <-. discriminate Hcard.
  - destruct (update_dashboard_inv _ _ _ _ _ _ _ _ _ _ _ Hsel Hempty Hrun)
      as (overall & avg' & care & facility & _ & _ & _ & _ & ->).
    cbn [summary_card] in Hcard. injection Hcard as <- _ _.
    split; [reflexivity|].
    apply empty_false_len in Hempty.
    destruct (select_rows_subtable _ _ _ _ _ _ _ Hsel) as (_ & Hle & _).
    lia.
Qed.

Lemma respondents_counted_witness :
  exists filtered_df,
    filtered_subset clean_survey (Some "sex-dropdown") all_selected [SStr "F"]
    = Ok filtered_df
    /\ 2%nat = len filtered_df
    /\ (0 < 2 <= len clean_survey)%nat.
Proof.
  eapply (respondents_counted no_number insertion_argsort clean_survey (Some "sex-dropdown")
            all_selected [SStr "F"] 0); reflexivity.
Defined.

(** ** Dropdown values *)

Section InsertionSortExt.
Context {A : Type}.
Variables ltb ltb' : A -> A -> bool.

Lemma insert_ext (x : A) (l : list A) :
  (forall b, In b l -> ltb x b = ltb' x b) ->
  insert ltb x l = insert ltb' x l.
Proof.
  induction l as [|y l IH]; intros H; cbn; [reflexivity|].
  rewrite <- (H y (or_introl eq_refl)).
  destruct (ltb x y); [reflexivity|].
  f_equal. apply IH. intros b Hb. apply H. now right.
Qed.

Lemma fold_insert_ext (l acc : list A) :
  (forall a b, In a (acc ++ l) -> In b (acc ++ l) -> ltb a b = ltb' a b) ->
  fold_left (fun acc x => insert ltb x acc) l acc
  = fold_left (fun acc x => insert ltb' x acc) l acc.
Proof.
  revert acc.
  induction l as [|x l IH]; intros acc H; cbn; [reflexivity|].
  rewrite <- (insert_ext x acc).
  - apply IH. intros a b Ha Hb.
    assert (P : forall z, In z (insert ltb x acc ++ l) -> In z (acc ++ x :: l)).
    { intros z Hz. apply in_app_or in Hz. apply in_or_app.
      destruct Hz as [Hz|Hz]; [|right; now right].
      apply (Permutation_in _ (Permutation_sym (insert_perm ltb x acc))) in Hz.
      destruct Hz as [<-|Hz]; [right; now left | now left]. }
    apply H; now apply P.
  - intros b Hb. apply H; apply in_or_app; [right; now left | now left].
Qed.

Lemma insertion_sort_ext (l : list A) :
  (forall a b, In a l -> In b l -> ltb a b = ltb' a b) ->
  insertion_sort ltb l = insertion_sort ltb' l.
Proof. intros H. apply (fold_insert_ext l []). exact H. Qed.

End InsertionSortExt.

Lemma string_compare_OT (a b : string) :
  String.compare a b = String_as_OT.compare a b.
Proof.
  revert b. induction a as [|x a IH]; intros [|y b]; cbn; try reflexivity.
  all: rewrite IH; now destruct (Ascii.compare x y).
Qed.

Lemma string_compare_trans (a b c : string) :
  String.compare a b = Lt -> String.compare b c = Lt -> String.compare a c = Lt.
Proof.
  rewrite !string_compare_OT.
  apply (@StrictOrder_Transitive _ _ String_as_OT.lt_strorder).
Qed.

Lemma string_leb_trans (a b c : string) :
  String.leb a b = true -> String.leb b c = true -> String.leb a c = true.
Proof.
  unfold String.leb. intros Hab Hbc.
  destruct (String.compare a b) eqn:Eab; try discriminate;
    destruct (String.compare b c) eqn:Ebc; try discriminate.
  - apply String.compare_eq_iff in Eab. subst a. now rewrite Ebc.
  - apply String.compare_eq_iff in Eab. subst a. now rewrite Ebc.
  - apply String.compare_eq_iff in Ebc. subst c. now rewrite Eab.
  - now rewrite (string_compare_trans a b c Eab Ebc).
Qed.

Lemma string_ltb_leb (a b : string) :
  String.ltb a b = negb (String.leb b a).
Proof.
  unfold String.ltb, String.leb. rewrite (String.compare_antisym b a).
  now destruct (String.compare a b).
Qed.

Lemma scalar_le_trans (a b c : scalar) :
  scalar_le a b -> scalar_le b c -> scalar_le a c.
Proof.
  destruct a, b, c; cbn; try tauto.
  - apply Qle_trans.
  - apply string_leb_trans.
Qed.

Lemma scalar_ltb_total_true (a b : scalar) :
  scalar_ltb_total a b = true -> scalar_le a b /\ ~ scalar_le b a.
Proof.
  destruct a as [x|x], b as [y|y]; cbn; try discriminate; try tauto.
  - unfold Qltb. rewrite negb_true_iff. intros H.
    assert (N : ~ (y <= x)%Q) by (intros L; apply Qle_bool_iff in L; congruence).
    split; [apply Qlt_le_weak, Qnot_le_lt, N | exact N].
  - rewrite string_ltb_leb, negb_true_iff. intros H.
    split; [|congruence].
    destruct (String.leb_total x y) as [L|L]; [exact L | congruence].
Qed.

Lemma scalar_ltb_total_false (a b : scalar) :
  scalar_ltb_total a b = false -> scalar_le b a.
Proof.
  destruct a as [x|x], b as [y|y]; cbn; try discriminate; try tauto.
  - unfold Qltb. rewrite negb_false_iff. apply Qle_bool_iff.
  - rewrite string_ltb_leb, negb_false_iff. tauto.
Qed.

Lemma scalar_le_not_ltb (a b : scalar) :
  scalar_le a b -> scalar_ltb b a = false.
Proof.
  destruct a as [x|x], b as [y|y]; cbn; try reflexivity.
  - intros H. unfold Qltb. rewrite negb_false_iff. now apply Qle_bool_iff.
  - intros H. now rewrite string_ltb_leb, H.
Qed.

Lemma homogeneous_ltb_total (l : list scalar) (a b : scalar) :
  forallb is_snum l || forallb is_sstr l = true ->
  In a l -> In b l -> scalar_ltb a b = scalar_ltb_total a b.
Proof.
  intros H Ha Hb. apply orb_true_iff in H.
  destruct H as [H|H]; rewrite forallb_forall in H;
    pose proof (H a Ha) as Ka; pose proof (H b Hb) as Kb;
    destruct a, b; cbn in *; try discriminate; reflexivity.
Qed.

Lemma filter_length_Permutation {A : Type} (f : A -> bool) (l l' : list A) :
  Permutation l l' ->
  List.length (filter f l) = List.length (filter f l').
Proof.
  induction 1 as [|x l l' _ IH|x y l|l l' l'' _ IH1 _ IH2]; cbn.
  - reflexivity.
  - destruct (f x); cbn; now rewrite IH.
  - destruct (f x), (f y); reflexivity.
  - now rewrite IH1.
Qed.

Lemma filter_length_le {A : Type} (f g : A -> bool) (l : list A) :
  (List.length (filter f (filter g l)) <= List.length (filter f l))%nat.
Proof.
  induction l as [|x l IH]; cbn; [lia|].
  destruct (g x); cbn; destruct (f x); cbn; lia.
Qed.

Lemma unique_once (l : list scalar) (x : scalar) :
  (List.length (filter (scalar_eqb x) (unique l)) <= 1)%nat.
Proof.
  induction l as [|y l IH]; cbn; [lia|].
  destruct (scalar_eqb x y) eqn:E; cbn.
  - assert (N : filter (scalar_eqb x)
                  (filter (fun z => negb (scalar_eqb y z)) (unique l)) = []).
    { clear IH. induction (unique l) as [|z u IHu]; cbn; [reflexivity|].
      destruct (scalar_eqb y z) eqn:Eyz; cbn; [apply IHu|].
      destruct (scalar_eqb x z) eqn:Exz; [|apply IHu].
      rewrite scalar_eqb_sym in E.
      now rewrite (scalar_eqb_trans y x z E Exz) in Eyz. }
    rewrite N. cbn. lia.
  - pose proof (filter_length_le (scalar_eqb x)
                  (fun z => negb (scalar_eqb y z)) (unique l)). lia.
Qed.

Lemma StronglySorted_weaken {A : Type} (R R' : A -> A -> Prop) (l : list A) :
  (forall a b, In a l -> In b l -> R a b -> R' a b) ->
  StronglySorted R l -> StronglySorted R' l.
Proof.
  intros H S. induction S as [|x l S IH Hx]; constructor.
  - apply IH. intros a b Ha Hb. apply H; now right.
  - rewrite Forall_forall in *. intros b Hb.
    apply H; [now left | now right | now apply Hx].
Qed.

(** X15: when the values of a column can be sorted, the dropdown offers
    exactly the non-missing values of the column (a value is offered if and
    only if it occurs), each of them once, in ascending order. *)
Theorem dimension_values_sorted_distinct (s : Series) (vals : list scalar) :
  dimension_values s = Ok vals ->
  (forall x, contains vals x = contains (present_values s) x)
  /\ (forall x, (List.length (filter (scalar_eqb x) vals) <= 1)%nat)
  /\ StronglySorted (fun a b => scalar_ltb b a = false) vals.
Proof.
  intros H. split; [intros x; now apply contains_dimension_values|].
  unfold dimension_values, sorted in H.
  destruct (forallb is_snum (unique (present_values s))
            || forallb is_sstr (unique (present_values s))) eqn:Hom;
    [|discriminate].
  injection H as <-.
  pose proof (insertion_sort_perm scalar_ltb (unique (present_values s))) as P.
  split.
  - intros x. rewrite <- (filter_length_Permutation _ _ _ P). apply unique_once.
  - rewrite (insertion_sort_ext scalar_ltb scalar_ltb_total)
      by (intros a b; apply homogeneous_ltb_total; exact Hom).
    apply (StronglySorted_weaken scalar_le).
    + intros a b _ _. apply scalar_le_not_ltb.
    + apply (insertion_sort_sorted scalar_ltb_total scalar_le).
      * exact scalar_le_trans.
      * exact scalar_ltb_total_true.
      * exact scalar_ltb_total_false.
Qed.

Lemma dimension_values_sorted_distinct_witness :
  StronglySorted (fun a b => scalar_ltb b a = false)
                 [SStr "B"; SStr "a"; SStr "b"].
Proof.
  apply (dimension_values_sorted_distinct
           (Object [Str "b"; Str "a"; NaN; Str "b"; Str "B"])).
  reflexivity.
Defined.

(** ** Start-up to serving *)

Lemma filter_cols_not_satisfaction (c : string) :
  In c filter_cols -> ~ In c all_satisfaction_cols.
Proof.
  unfold filter_cols, all_satisfaction_cols, care_satisfaction_cols,
    facility_satisfaction_cols. simpl.
  intros [<-|[<-|[]]] H;
    repeat (destruct H as [H|H]; [discriminate H|]); exact H.
Qed.

Lemma getitem_clean_filter_col (str_to_float : string -> option Q)
  (df : DataFrame) (c : string) :
  In c filter_cols ->
  getitem (clean str_to_float df) c = getitem df c.
Proof.
  intros H. unfold getitem, clean, apply_mapping.
  rewrite fold_map_column_other; [reflexivity|].
  now apply filter_cols_not_satisfaction.
Qed.

(** X16: once the file is read and every required column is present, the
    script's outcome is decided by the two filter columns alone: if the
    values of each can be sorted it serves the cleaned table, offering for
    each dropdown the "all" entry followed by the sorted distinct values of
    the column, each as its own label; otherwise it dies of the error raised
    by the sort. *)
Theorem script_serves_or_crashes (str_to_float : string -> option Q)
  (data_path : string) (df_orig : DataFrame) (facility sex : Series) :
  has_required_columns df_orig ->
  getitem df_orig "health_facility" = Ok facility ->
  getitem df_orig "respondent_sex" = Ok sex ->
  match dimension_values facility, dimension_values sex with
  | Ok facilities, Ok sexes =>
      exists out,
        script str_to_float data_path (Some df_orig)
        = Serving out (clean str_to_float df_orig)
                  (mkOption (SStr "All Facilities") (SStr "all")
                   :: map (fun v => mkOption v v) facilities)
                  (mkOption (SStr "All Sexes") (SStr "all")
                   :: map (fun v => mkOption v v) sexes)
  | Raise e, _ | Ok _, Raise e =>
      exists out, script str_to_float data_path (Some df_orig) = Crashed out e
  end.
Proof.
  intros Hreq Hf Hs. apply missing_cols_nil in Hreq.
  unfold script. rewrite Hreq. cbn [truthy].
  pose proof (apply_mapping_output_irrelevant str_to_float all_satisfaction_cols
                df_orig
                ([Line ("Data loaded successfully from: " ++ data_path)]
                 ++ [Line (nl ++ "Applying numeric mapping...")]) []) as E.
  fold (apply_mapping str_to_float df_orig
          ([Line ("Data loaded successfully from: " ++ data_path)]
           ++ [Line (nl ++ "Applying numeric mapping...")])) in E.
  fold (apply_mapping str_to_float df_orig []) in E.
  fold (clean str_to_float df_orig) in E.
  destruct (apply_mapping str_to_float df_orig _) as [df out]. cbn [fst] in E.
  subst df. unfold dropdown_options.
  rewrite !getitem_clean_filter_col by (cbn; tauto).
  rewrite Hf, Hs. cbn [bind].
  destruct (dimension_values facility) as [vf|e]; cbn [bind]; [|eauto].
  destruct (dimension_values sex) as [vs|e]; cbn [bind]; eauto.
Qed.

Lemma script_serves_or_crashes_witness :
  exists out,
    script no_number "survey.csv" (Some raw_survey)
    = Serving out (clean no_number raw_survey)
              (mkOption (SStr "All Facilities") (SStr "all")
               :: map (fun v => mkOption v v) [SStr "A"; SStr "B"])
              (mkOption (SStr "All Sexes") (SStr "all")
               :: map (fun v => mkOption v v) [SStr "F"; SStr "M"]).
Proof.
  apply (script_serves_or_crashes no_number "survey.csv" raw_survey
           (Object [Str "A"; Str "B"; NaN])
           (Object [Str "M"; Str "F"; Str "F"])).
  - required_columns.
  - reflexivity.
  - reflexivity.
Defined.

(** ** Wider selections *)

Lemma contains_incl (sel sel' : list scalar) (x : scalar) :
  incl sel sel' -> contains sel x = true -> contains sel' x = true.
Proof.
  unfold contains. rewrite !existsb_exists.
  intros H (y & Hy & E). exists y. split; [now apply H | exact E].
Qed.

Lemma boolean_mask_mono {A : Type} (m m' : list bool) (l : list A) :
  Forall2 (fun a b => a = true -> b = true) m m' ->
  (List.length (boolean_mask m l) <= List.length (boolean_mask m' l))%nat.
Proof.
  intros H. revert l.
  induction H as [|a b m m' Hab _ IH]; intros [|x l]; cbn; try lia.
  specialize (IH l).
  destruct a; [rewrite (Hab eq_refl); cbn; lia|].
  destruct b; cbn; lia.
Qed.

Lemma isin_mono (s : Series) (sel sel' : list scalar) :
  incl sel sel' ->
  Forall2 (fun a b => a = true -> b = true) (isin s sel) (isin s sel').
Proof.
  intros H. destruct s as [v|v]; cbn.
  - induction v as [|[q|] v IH]; cbn; constructor; auto.
    now apply contains_incl.
  - induction v as [|[q|x|] v IH]; cbn; constructor; auto;
      now apply contains_incl.
Qed.

Lemma mask_step_mono (df : DataFrame) (col : string) (sel sel' : list scalar)
  (f f' : DataFrame) :
  truthy sel = true -> incl sel sel' ->
  (if truthy sel && negb (contains sel (SStr "all"))
   then c <- getitem df col ;; Ok (mask_rows (isin c sel) df)
   else Ok df) = Ok f ->
  (if truthy sel' && negb (contains sel' (SStr "all"))
   then c <- getitem df col ;; Ok (mask_rows (isin c sel') df)
   else Ok df) = Ok f' ->
  (len f <= len f')%nat.
Proof.
  intros Ht Hincl Hf Hf'. rewrite Ht in Hf. cbn [andb] in Hf.
  destruct (truthy sel' && negb (contains sel' (SStr "all"))) eqn:F'.
  - apply andb_true_iff in F'. destruct F' as [_ N'].
    apply negb_true_iff in N'.
    destruct (contains sel (SStr "all")) eqn:N.
    + now rewrite (contains_incl sel sel' _ Hincl N) in N'.
    + cbn [negb] in Hf.
      destruct (getitem df col) as [c|]; cbn [bind] in *; [|discriminate].
      injection Hf as <-. injection Hf' as <-.
      apply boolean_mask_mono. now apply isin_mono.
  - injection Hf' as <-.
    destruct (negb (contains sel (SStr "all")));
      [|injection Hf as <-; lia].
    destruct (getitem df col) as [c|]; cbn [bind] in Hf; [|discriminate].
    injection Hf as <-. apply len_mask_rows.
Qed.

(** X17: widening a selection never loses respondents: if a non-empty
    selection is included in another, the facility filter (and likewise the
    sex filter) keeps with the wider selection at least as many rows as with
    the narrower one. *)
Theorem wider_selection_keeps_more (df : DataFrame) (sel sel' : list scalar) :
  truthy sel = true ->
  incl sel sel' ->
  (forall f f', filter_facility sel df = Ok f ->
                filter_facility sel' df = Ok f' -> (len f <= len f')%nat)
  /\ (forall f f', filter_sex sel df = Ok f ->
                   filter_sex sel' df = Ok f' -> (len f <= len f')%nat).
Proof.
  intros Ht Hincl. split; intros f f'.
  - apply (mask_step_mono df "health_facility" sel sel' f f' Ht Hincl).
  - apply (mask_step_mono df "respondent_sex" sel sel' f f' Ht Hincl).
Qed.

Lemma wider_selection_keeps_more_witness :
  (len (mask_rows [true; false; false] clean_survey)
   <= len (mask_rows [true; true; false] clean_survey))%nat.
Proof.
  destruct (wider_selection_keeps_more clean_survey [SStr "A"]
              [SStr "B"; SStr "A"] eq_refl) as [H _].
  - intros x [<-|[]]. right. now left.
  - apply H; reflexivity.
Defined.

Lemma callback_defined_after_cleaning_witness :
  exists o,
    update_dashboard no_number insertion_argsort (clean no_number raw_survey) (Some "sex-dropdown")
                     [SStr "unknown facility"] [] 7 = Ok o.
Proof.
  apply (callback_defined_after_cleaning no_number insertion_argsort raw_survey).
  required_columns.
Defined.
